(** * Compound module of the ethereum family
    (src/families/ethereum/modules/compound.js)

    A shallow embedding of the module that folds a cToken ("C*") sub-account
    into the sub-account of the ERC20 token it wraps, and the properties of
    it that the specification states.

    Conventions of the embedding.
    - A finite [BigNumber] that is a rate is a rational ([Q]); balances and
      operation values are integers in the smallest unit ([Z]).  NaN and the
      infinities of bignumber.js are outside the model.
    - An [async] function returns a [Result]: [Err] is a rejected promise or
      a thrown exception, [Ok] a fulfilled one.
    - The collaborators that live outside the module (the environment flag,
      the currency registry, the network, [mergeOps], the string forms of a
      [BigNumber], the clock) are the fields of [Env].
    - The module-level variable [compoundPreloadedValue] is passed explicitly.
    - A function that returns either the very array it was given or a new one
      says which: see [Returned]. *)

From Stdlib Require Import ZArith QArith Qround String Ascii List Lia Lqa.
From stdpp Require Import base option strings gmap list.
Import ListNotations.

Local Open Scope string_scope.
Local Open Scope Z_scope.

(** ** Data model *)

Record CryptoCurrency := { currency_id : string }.

(** [token_magnitude] is [units[0].magnitude]; [token_compoundFor] is the id
    of the wrapped token, absent for a plain token. *)
Record TokenCurrency := {
  token_id : string;
  token_contractAddress : string;
  token_compoundFor : option string;
  token_magnitude : Z
}.

#[global] Instance TokenCurrency_eq_dec : EqDecision TokenCurrency.
Proof. solve_decision. Defined.

Inductive ExtraValue :=
| ExtraBigNumber (v : Z)
| ExtraString (s : string).

(** [op_date] is [date.getTime()], in milliseconds. *)
Record Operation := {
  op_id : string;
  op_hash : string;
  op_date : Z;
  op_type : string;
  op_value : Z;
  op_accountId : string;
  op_extra : list (string * ExtraValue)
}.

Definition SwapOperation : Type := string.

Record TokenAccount := {
  account_id : string;
  account_token : TokenCurrency;
  account_parentId : string;
  account_balance : Z;
  account_spendableBalance : Z;
  account_creationDate : Z;
  account_operationsCount : Z;
  account_operations : list Operation;
  account_pendingOperations : list Operation;
  account_starred : bool;
  account_swapHistory : list SwapOperation
}.

(** ** Failures *)

Inductive Error :=
| NetworkError (msg : string)
| TokenNotFound (id : string)
| TypeError.

Inductive Result (A : Type) :=
| Ok (a : A)
| Err (e : Error).
Arguments Ok {A} a.
Arguments Err {A} e.

#[global] Instance Result_ret : MRet Result := fun A a => Ok a.
#[global] Instance Result_bind : MBind Result := fun A B f m =>
  match m with
  | Ok a => f a
  | Err e => Err e
  end.

Definition is_Ok {A} (r : Result A) : Prop := exists a, r = Ok a.
Definition is_Err {A} (r : Result A) : Prop := exists e, r = Err e.

(** ** bignumber.js, with its default configuration
    (ROUNDING_MODE = ROUND_HALF_UP, DECIMAL_PLACES = 20) *)

(** [x.times(y)] for an integer [x] and a rate [y]: exact. *)
Definition times (x : Z) (y : Q) : Q := (inject_Z x * y)%Q.

(** [x.integerValue()]: no rounding mode is given, so ROUNDING_MODE applies:
    to the nearest integer, a tie away from zero. *)
Definition integerValue (x : Q) : Z :=
  if Qle_bool 0 x then Qfloor (x + (1 # 2)) else - Qfloor (- x + (1 # 2)).

(** [x.decimalPlaces(2)], same rounding mode. *)
Definition decimalPlaces2 (x : Q) : Q :=
  (inject_Z (integerValue (x * inject_Z 100)) / inject_Z 100)%Q.

(** [BigNumber(10).pow(n)] for an integer [n]; a negative power is
    [1 / 10^-n] rounded to DECIMAL_PLACES decimals, which is 0 below
    [10^-20]. *)
Definition pow10 (n : Z) : Q :=
  if 0 <=? n then inject_Z (10 ^ n)
  else if n <? -20 then 0%Q
  else (1 # Z.to_pos (10 ^ (- n)))%Q.

(** ** JavaScript values *)

(** [if (s)] on a [?string]: [null], [undefined] and the empty string are
    falsy. *)
Definition truthy (s : option string) : option string :=
  match s with
  | Some s' => if decide (s' = "") then None else Some s'
  | None => None
  end.

Definition ascii_toLowerCase (c : ascii) : ascii :=
  let n := nat_of_ascii c in
  if (65 <=? n)%nat && (n <=? 90)%nat then ascii_of_nat (n + 32) else c.

(** [s.toLowerCase()], on the ASCII letters that a contract address has. *)
Fixpoint toLowerCase (s : string) : string :=
  match s with
  | EmptyString => EmptyString
  | String c s' => String (ascii_toLowerCase c) (toLowerCase s')
  end.

(** [Math.round(t / 1000)]: a tie goes up. *)
Definition Math_round_div1000 (t : Z) : Z := (t + 500) / 1000.

(** A plain object used as a map from token ids: the keys keep the order in
    which they were first set ([Object.keys], lodash [values]).  The keys in
    use, token ids and operation types, are neither integer-like nor names
    of [Object.prototype]. *)
Definition Obj (V : Type) : Type := list (string * V).

Fixpoint obj_get {V} (k : string) (o : Obj V) : option V :=
  match o with
  | [] => None
  | (k', v) :: o' => if decide (k' = k) then Some v else obj_get k o'
  end.

Fixpoint obj_set {V} (k : string) (v : V) (o : Obj V) : Obj V :=
  match o with
  | [] => [(k, v)]
  | (k', v') :: o' =>
      if decide (k' = k) then (k, v) :: o' else (k', v') :: obj_set k v o'
  end.

Definition obj_values {V} (o : Obj V) : list V := map snd o.

(** What a function that takes an array gives back: the array it was given
    ([SameArray], the same reference) or an array it built. *)
Inductive Returned :=
| SameArray
| NewArray (l : list TokenAccount).

Definition array_of (input : list TokenAccount) (r : Returned)
  : list TokenAccount :=
  match r with
  | SameArray => input
  | NewArray l => l
  end.

(** ** The collaborators *)

(** The query of a GET on [/ctoken].  [addresses] is what [URL.format]
    writes: the comma-joined string of [fetchCurrentRates] is one element,
    like the one-element array of [fetchHistoricalRates]. *)
Record Request := {
  block_timestamp : Z;
  addresses : list string
}.

(** An element of [data.cToken]; the two values are [exchange_rate.value]
    and [comp_supply_apy.value]. *)
Record CToken := {
  token_address : string;
  exchange_rate_value : string;
  comp_supply_apy_value : string
}.

Record Response := { data_cToken : list CToken }.

(** - [getEnv_COMPOUND] is [getEnv("COMPOUND")];
    - [listTokens] and [listTokensForCryptoCurrency] are called with
      [{ withDelisted: true }];
    - [getTokenById] throws on an unknown id ([None]);
    - [network] rejects ([Err]) or resolves to a response;
    - [BigNumber_of_string] is [BigNumber(s)] and [BigNumber_toString] is
      [x.toString()];
    - [Date_now] is [new Date()]. *)
Record Env := {
  getEnv_COMPOUND : bool;
  listTokens : list TokenCurrency;
  listTokensForCryptoCurrency : CryptoCurrency -> list TokenCurrency;
  getTokenById : string -> option TokenCurrency;
  network : Request -> Result Response;
  mergeOps : list Operation -> list Operation -> list Operation;
  BigNumber_of_string : string -> Q;
  BigNumber_toString : Q -> string;
  Date_now : Z
}.

(** [items.map(fn)] for an [fn] that may throw: the results in the order of
    the items, or the first failure. *)
Fixpoint Array_map {A B} (fn : A -> Result B) (items : list A)
  : Result (list B) :=
  match items with
  | [] => Ok []
  | item :: items' =>
      b ← fn item;
      bs ← Array_map fn items';
      Ok (b :: bs)
  end.

(** Modelled from the spec: [promiseAllBatched] of [src/promise.js], which is
    not among the sources.  It applies [fn] to every item with at most
    [batch] calls in flight and assembles the results in the order of the
    items; it rejects when a call rejects.  The calls are independent reads,
    so they are run here one after the other. *)
Definition promiseAllBatched {A B} (batch : nat) (items : list A)
  (fn : A -> Result B) : Result (list B) :=
  Array_map fn items.

(** The entry of the module-level table for one cToken. *)
Record Preloaded := {
  rate : string;
  supplyAPY : string
}.

Abbreviation CompoundPreloaded := (gmap string Preloaded).

Record CurrentRate := {
  current_token : TokenCurrency;
  current_rate : Q;
  current_supplyAPY : string
}.

Record HistoRate := {
  histo_token : TokenCurrency;
  histo_rate : Q
}.

(** The value that [inferSubAccountsCompound] stores under the id of the
    wrapped token. *)
Record Compound := {
  tokenAccount : option TokenAccount;
  token : TokenCurrency;
  ctoken : TokenCurrency;
  ctokenAccount : option TokenAccount
}.

(** ** The module *)

Section Compound.

Variable E : Env.

Definition getTokenById_or_throw (id : string) : Result TokenCurrency :=
  match getTokenById E id with
  | Some t => Ok t
  | None => Err (TokenNotFound id)
  end.

Definition fetch (block : Z) (addrs : list string) : Result Response :=
  network E {| block_timestamp := block; addresses := addrs |}.

(** [data.cToken.find(ct => ct.token_address.toLowerCase() ===
    token.contractAddress.toLowerCase())] *)
Definition find_cToken (data : Response) (t : TokenCurrency)
  : option CToken :=
  List.find (fun ct => bool_decide
               (toLowerCase (token_address ct)
                = toLowerCase (token_contractAddress t)))
            (data_cToken data).

(** The rate of an entry of the response, brought to the magnitude of the
    wrapped token. *)
Definition rate_of_cToken (cToken : CToken) (t : TokenCurrency) : Result Q :=
  let rawRate := exchange_rate_value cToken in
  otoken ← getTokenById_or_throw (default "" (token_compoundFor t));
  let magnitudeRatio := pow10 (token_magnitude otoken - token_magnitude t) in
  Ok (BigNumber_of_string E rawRate * magnitudeRatio)%Q.

Definition currentRate_of (data : Response) (t : TokenCurrency)
  : Result CurrentRate :=
  match find_cToken data t with
  | None => Ok {| current_token := t; current_rate := 0;
                  current_supplyAPY := "" |}
  | Some cToken =>
      rate ← rate_of_cToken cToken t;
      let supplyAPY :=
        BigNumber_toString E
          (decimalPlaces2
             (BigNumber_of_string E (comp_supply_apy_value cToken)))
        ++ "%" in
      Ok {| current_token := t; current_rate := rate;
            current_supplyAPY := supplyAPY |}
  end.

Definition fetchCurrentRates (tokens : list TokenCurrency)
  : Result (list CurrentRate) :=
  match tokens with
  | [] => Ok []
  | _ =>
      data ← fetch 0
        [String.concat "," (map token_contractAddress tokens)];
      Array_map (currentRate_of data) tokens
  end.

Definition fetchHistoricalRate (t : TokenCurrency) (date : Z)
  : Result HistoRate :=
  data ← fetch (Math_round_div1000 date) [token_contractAddress t];
  match find_cToken data t with
  | None => Ok {| histo_token := t; histo_rate := 0 |}
  | Some cToken =>
      rate ← rate_of_cToken cToken t;
      Ok {| histo_token := t; histo_rate := rate |}
  end.

Definition fetchHistoricalRates (t : TokenCurrency) (dates : list Z)
  : Result (list HistoRate) :=
  promiseAllBatched 3 dates (fetchHistoricalRate t).

(** [preload] gives the new content of [compoundPreloadedValue] and the
    value it resolves to. *)
Definition preload (compoundPreloadedValue : CompoundPreloaded)
  : Result (CompoundPreloaded * CompoundPreloaded) :=
  if negb (getEnv_COMPOUND E) then Ok (compoundPreloadedValue, ∅)
  else
    let ctokens :=
      filter (fun t => is_Some (truthy (token_compoundFor t)))
             (listTokens E) in
    currentRates ← fetchCurrentRates ctokens;
    let preloaded :=
      fold_left
        (fun (preloaded : CompoundPreloaded) r =>
           <[ token_id (current_token r) :=
                {| rate := BigNumber_toString E (current_rate r);
                   supplyAPY := current_supplyAPY r |} ]> preloaded)
        currentRates ∅ in
    Ok (preloaded, preloaded).

Definition hydrate (value : CompoundPreloaded) : CompoundPreloaded := value.

Definition getCTokenRate (compoundPreloadedValue : CompoundPreloaded)
  (ctoken : TokenCurrency) : Q :=
  match compoundPreloadedValue !! token_id ctoken with
  | Some value => BigNumber_of_string E (rate value)
  | None => 0%Q
  end.

Definition getCTokenSupplyAPY (compoundPreloadedValue : CompoundPreloaded)
  (ctoken : TokenCurrency) : string :=
  match compoundPreloadedValue !! token_id ctoken with
  | Some value => supplyAPY value
  | None => ""
  end.

(** [subAccounts.find((a) => a.token.id === compoundFor)] *)
Definition find_tokenAccount (compoundFor : string)
  (subAccounts : list TokenAccount) : option TokenAccount :=
  List.find (fun a => bool_decide (token_id (account_token a) = compoundFor))
            subAccounts.

(** [subAccounts.find((a) => a.token === ctoken)]: the tokens of the
    registry are unique objects, equal exactly when they are the same. *)
Definition find_ctokenAccount (ctoken : TokenCurrency)
  (subAccounts : list TokenAccount) : option TokenAccount :=
  List.find (fun a => bool_decide (account_token a = ctoken)) subAccounts.

(** [inferSubAccountsCompound]: the body of the [forEach], then the loop. *)
Definition inferStep (subAccounts : list TokenAccount)
  (compoundByTokenId : Obj Compound) (ctoken : TokenCurrency)
  : Result (Obj Compound) :=
  match truthy (token_compoundFor ctoken) with
  | Some compoundFor =>
      let tokenAccount := find_tokenAccount compoundFor subAccounts in
      let ctokenAccount := find_ctokenAccount ctoken subAccounts in
      match tokenAccount, ctokenAccount with
      | None, None => Ok compoundByTokenId
      | _, _ =>
          token ← getTokenById_or_throw compoundFor;
          Ok (obj_set compoundFor
                {| tokenAccount := tokenAccount; token := token;
                   ctoken := ctoken; ctokenAccount := ctokenAccount |}
                compoundByTokenId)
      end
  | None => Ok compoundByTokenId
  end.

Fixpoint inferLoop (subAccounts : list TokenAccount)
  (tokens : list TokenCurrency) (compoundByTokenId : Obj Compound)
  : Result (Obj Compound) :=
  match tokens with
  | [] => Ok compoundByTokenId
  | ctoken :: tokens' =>
      o ← inferStep subAccounts compoundByTokenId ctoken;
      inferLoop subAccounts tokens' o
  end.

Definition inferSubAccountsCompound (currency : CryptoCurrency)
  (subAccounts : list TokenAccount) : Result (Obj Compound) :=
  inferLoop subAccounts (listTokensForCryptoCurrency E currency) [].

(** The placeholder of [prepareTokenAccounts] for a cToken. *)
Definition emptyCTokenAccount (ctoken : TokenCurrency) : TokenAccount :=
  {| account_id := "empty_" ++ token_id ctoken;
     account_token := ctoken;
     account_parentId := "";
     account_balance := 0;
     account_spendableBalance := 0;
     account_creationDate := Date_now E;
     account_operationsCount := 0;
     account_operations := [];
     account_pendingOperations := [];
     account_starred := false;
     account_swapHistory := [] |}.

Definition implicitCTokenAccount (c : Compound) : option TokenAccount :=
  match tokenAccount c, ctokenAccount c with
  | Some _, None => Some (emptyCTokenAccount (ctoken c))
  | _, _ => None
  end.

Definition disabled (currency : CryptoCurrency) : bool :=
  negb (bool_decide (currency_id currency = "ethereum"))
  || negb (getEnv_COMPOUND E).

Definition prepareTokenAccounts (currency : CryptoCurrency)
  (subAccounts : list TokenAccount) : Result Returned :=
  if disabled currency then Ok SameArray
  else
    compoundByTokenId ← inferSubAccountsCompound currency subAccounts;
    let implicitCTokenAccounts :=
      omap implicitCTokenAccount (obj_values compoundByTokenId) in
    match implicitCTokenAccounts with
    | [] => Ok SameArray
    | _ => Ok (NewArray (subAccounts ++ implicitCTokenAccounts))
    end.

Definition cdaiToDaiOpMapping : Obj string :=
  [("IN", "SUPPLY"); ("OUT", "REDEEM")].

(** One step of the [map] over [ctokenAccount.operations]: an operation
    whose type has no image is left out ([filter(Boolean)]). *)
Definition remapOperation (a : TokenAccount) (op : Operation)
  (r : HistoRate) : option Operation :=
  let rate := histo_rate r in
  let value := integerValue (times (op_value op) rate) in
  match obj_get (op_type op) cdaiToDaiOpMapping with
  | None => None
  | Some type =>
      Some {| op_id := account_id a ++ "-" ++ op_hash op ++ "-" ++ type;
              op_hash := op_hash op;
              op_date := op_date op;
              op_type := type;
              op_value := value;
              op_accountId := account_id a;
              op_extra :=
                [("compoundValue", ExtraBigNumber (op_value op));
                 ("rate", ExtraString (BigNumber_toString E rate))] |}
  end.

(** [operations.map((op, i) => ... rates[i] ...).filter(Boolean)]; reading
    [rate] off a missing [rates[i]] throws. *)
Fixpoint remapOperations (a : TokenAccount) (ops : list Operation)
  (rates : list HistoRate) : Result (list Operation) :=
  match ops, rates with
  | [], _ => Ok []
  | _ :: _, [] => Err TypeError
  | op :: ops', r :: rates' =>
      newOps ← remapOperations a ops' rates';
      Ok (match remapOperation a op r with
          | Some o => o :: newOps
          | None => newOps
          end)
  end.

(** The callback that [digestTokenAccounts] runs on every account: [None]
    is its [undefined], the account that disappears. *)
Definition digestTokenAccount (compoundPreloadedValue : CompoundPreloaded)
  (compoundByTokenId : Obj Compound) (a : TokenAccount)
  : Result (option TokenAccount) :=
  match truthy (token_compoundFor (account_token a)) with
  | Some compoundFor =>
      match obj_get compoundFor compoundByTokenId with
      | None => Ok (Some a)
      | Some _ => Ok None
      end
  | None =>
      match obj_get (token_id (account_token a)) compoundByTokenId with
      | Some maybeCompound =>
          match ctokenAccount maybeCompound with
          | Some ctokenAccount =>
              let ctoken := ctoken maybeCompound in
              let spendableBalance := account_balance a in
              let latestRate :=
                getCTokenRate compoundPreloadedValue ctoken in
              let balance :=
                account_balance a
                + integerValue
                    (times (account_balance ctokenAccount) latestRate) in
              rates ← fetchHistoricalRates ctoken
                        (map op_date (account_operations ctokenAccount));
              newOps ← remapOperations a
                         (account_operations ctokenAccount) rates;
              Ok (Some
                    {| account_id := account_id a;
                       account_token := account_token a;
                       account_parentId := account_parentId a;
                       account_balance := balance;
                       account_spendableBalance := spendableBalance;
                       account_creationDate := account_creationDate a;
                       account_operationsCount := account_operationsCount a;
                       account_operations :=
                         mergeOps E (account_operations a) newOps;
                       account_pendingOperations :=
                         account_pendingOperations a;
                       account_starred := account_starred a;
                       account_swapHistory := account_swapHistory a |})
          | None => Ok (Some a)
          end
      | None => Ok (Some a)
      end
  end.

Definition digestTokenAccounts (compoundPreloadedValue : CompoundPreloaded)
  (currency : CryptoCurrency) (subAccounts : list TokenAccount)
  : Result Returned :=
  if disabled currency then Ok SameArray
  else
    compoundByTokenId ← inferSubAccountsCompound currency subAccounts;
    match compoundByTokenId with
    | [] => Ok SameArray
    | _ =>
        all ← promiseAllBatched 2 subAccounts
                (digestTokenAccount compoundPreloadedValue compoundByTokenId);
        Ok (NewArray (omap id all))
    end.

End Compound.

(** ** Vocabulary of the statements *)

(** [r] is [x] rounded to the nearest integer, a tie going away from zero. *)
Definition rounds_half_away_from_zero (x : Q) (r : Z) : Prop :=
  (0 <= x -> inject_Z r - (1 # 2) <= x /\ x < inject_Z r + (1 # 2))%Q
  /\ (x < 0 -> inject_Z r - (1 # 2) < x /\ x <= inject_Z r + (1 # 2))%Q.

(** [x] with its fractional part cut off. *)
Definition truncated_toward_zero (x : Q) : Z :=
  Z.quot (Qnum x) (Z.pos (Qden x)).

(** A cToken of the registry gets an entry under [compoundFor] when one of
    its two accounts is among [subAccounts]. *)
Definition pairs (subAccounts : list TokenAccount) (ctoken : TokenCurrency)
  (compoundFor : string) : Prop :=
  truthy (token_compoundFor ctoken) = Some compoundFor
  /\ (is_Some (find_tokenAccount compoundFor subAccounts)
      \/ is_Some (find_ctokenAccount ctoken subAccounts)).

(** The entry that the loop writes for [ctoken]. *)
Definition entry_of (subAccounts : list TokenAccount)
  (ctoken : TokenCurrency) (compoundFor : string) (tok : TokenCurrency)
  : Compound :=
  {| tokenAccount := find_tokenAccount compoundFor subAccounts;
     token := tok;
     ctoken := ctoken;
     ctokenAccount := find_ctokenAccount ctoken subAccounts |}.

(** [a] is an account of a plain token whose entry [c] holds the cToken
    account [ca]: the case in which [digestTokenAccounts] merges. *)
Definition merges (m : Obj Compound) (a : TokenAccount) (c : Compound)
  (ca : TokenAccount) : Prop :=
  truthy (token_compoundFor (account_token a)) = None
  /\ obj_get (token_id (account_token a)) m = Some c
  /\ ctokenAccount c = Some ca.

(** The closed mapping of the specification: an incoming transfer becomes a
    supply, an outgoing transfer a redeem, anything else has no image. *)
Definition supply_or_redeem (type : string) : option string :=
  if decide (type = "IN") then Some "SUPPLY"
  else if decide (type = "OUT") then Some "REDEEM"
  else None.

(** An account of a cToken: its token wraps another one. *)
Definition is_ctoken_account (a : TokenAccount) : bool :=
  bool_decide (is_Some (truthy (token_compoundFor (account_token a)))).

(** What identifies an account in a list. *)
Definition id_and_token (a : TokenAccount) : string * TokenCurrency :=
  (account_id a, account_token a).

(** [a'] is [a] up to its balance, its spendable balance and its
    operations. *)
Definition differs_in_amounts_only (a a' : TokenAccount) : Prop :=
  account_id a' = account_id a
  /\ account_token a' = account_token a
  /\ account_parentId a' = account_parentId a
  /\ account_creationDate a' = account_creationDate a
  /\ account_operationsCount a' = account_operationsCount a
  /\ account_pendingOperations a' = account_pendingOperations a
  /\ account_starred a' = account_starred a
  /\ account_swapHistory a' = account_swapHistory a.

(** The entry that [preload] writes for a current rate. *)
Definition preloaded_entry (E : Env) (r : CurrentRate) : Preloaded :=
  {| rate := BigNumber_toString E (current_rate r);
     supplyAPY := current_supplyAPY r |}.


(** ** A concrete environment

    A registry with DAI and its cToken cDAI, plain-decimal string forms of a
    [BigNumber], and a network that is either down or answers from a table. *)

Module Sample.

Definition digit_of (c : ascii) : option Z :=
  let n := nat_of_ascii c in
  if (48 <=? n)%nat && (n <=? 57)%nat then Some (Z.of_nat (n - 48)) else None.

(** Reads [digits[.digits]]: the numerator so far and the power of ten under
    it. *)
Fixpoint read_decimal (s : string) (num : Z) (den : positive) (dot : bool)
  : Q :=
  match s with
  | EmptyString => Qred (num # den)
  | String c s' =>
      match digit_of c with
      | Some d =>
          read_decimal s' (num * 10 + d)
            (if dot then (den * 10)%positive else den) dot
      | None => read_decimal s' num den true
      end
  end.

(** [BigNumber(s)] for a string in plain decimal notation. *)
Definition of_string (s : string) : Q :=
  match s with
  | String "-" s' => Qopp (read_decimal s' 0 1 false)
  | _ => read_decimal s 0 1 false
  end.

Fixpoint nat_digits (fuel : nat) (n : Z) (acc : string) : string :=
  match fuel with
  | O => acc
  | S fuel' =>
      let acc' := String (ascii_of_nat (48 + Z.to_nat (n mod 10))) acc in
      if n / 10 =? 0 then acc' else nat_digits fuel' (n / 10) acc'
  end.

Fixpoint frac_digits (fuel : nat) (num den : Z) : string :=
  match fuel with
  | O => ""
  | S fuel' =>
      if num =? 0 then ""
      else String (ascii_of_nat (48 + Z.to_nat (num * 10 / den)))
                  (frac_digits fuel' (num * 10 mod den) den)
  end.

(** [x.toString()] in plain decimal notation. *)
Definition to_string (x : Q) : string :=
  let n := Z.abs (Qnum x) in
  let d := Z.pos (Qden x) in
  (if Qnum x <? 0 then "-" else "")
  ++ nat_digits 100 (n / d) ""
  ++ (if n mod d =? 0 then "" else "." ++ frac_digits 40 (n mod d) d).

Definition ethereum : CryptoCurrency := {| currency_id := "ethereum" |}.
Definition bitcoin : CryptoCurrency := {| currency_id := "bitcoin" |}.

Definition dai : TokenCurrency :=
  {| token_id := "ethereum/erc20/dai";
     token_contractAddress := "0x6B175474E89094C44Da98b954EedeAC495271d0F";
     token_compoundFor := None;
     token_magnitude := 18 |}.

Definition cdai : TokenCurrency :=
  {| token_id := "ethereum/erc20/compound_dai";
     token_contractAddress := "0x5d3a536E4D6DbD6114cc1Ead35777bAB948E3643";
     token_compoundFor := Some "ethereum/erc20/dai";
     token_magnitude := 8 |}.

Definition registry (id : string) : option TokenCurrency :=
  if decide (id = token_id dai) then Some dai
  else if decide (id = token_id cdai) then Some cdai
  else None.

(** Puts [o] before the first operation that is older. *)
Fixpoint insert_by_date (o : Operation) (l : list Operation)
  : list Operation :=
  match l with
  | [] => [o]
  | o' :: l' =>
      if op_date o' <? op_date o then o :: l else o' :: insert_by_date o l'
  end.

(** Modelled from the spec: [mergeOps] of [src/bridge/jsHelpers.js], which is
    not among the sources: the union of the two lists keyed by operation id,
    newest first. *)
Definition merge_ops (existing newFetched : list Operation)
  : list Operation :=
  fold_left
    (fun all o =>
       if existsb (fun o' => bool_decide (op_id o' = op_id o)) all
       then all else insert_by_date o all)
    newFetched existing.

Definition oracle_down (_ : Request) : Result Response :=
  Err (NetworkError "ECONNREFUSED").

(** The oracle knows cDAI at an exchange rate of 0.00000000005, whatever the
    block: 0.5 once brought to the magnitude of DAI. *)
Definition oracle_up (_ : Request) : Result Response :=
  Ok {| data_cToken :=
          [ {| token_address := "0x5d3a536e4d6dbd6114cc1ead35777bab948e3643";
               exchange_rate_value := "0.00000000005";
               comp_supply_apy_value := "2.345" |} ] |}.

(** The oracle answers, without an entry for any token. *)
Definition oracle_empty (_ : Request) : Result Response :=
  Ok {| data_cToken := [] |}.

Definition env (compound : bool) (net : Request -> Result Response) : Env :=
  {| getEnv_COMPOUND := compound;
     listTokens := [dai; cdai];
     listTokensForCryptoCurrency := fun c =>
       if decide (currency_id c = "ethereum") then [dai; cdai] else [];
     getTokenById := registry;
     network := net;
     mergeOps := merge_ops;
     BigNumber_of_string := of_string;
     BigNumber_toString := to_string;
     Date_now := 1600000000000 |}.

Definition account (aid : string) (t : TokenCurrency) (balance : Z)
  (ops : list Operation) : TokenAccount :=
  {| account_id := aid;
     account_token := t;
     account_parentId := "js:2:ethereum:0xAB:";
     account_balance := balance;
     account_spendableBalance := balance;
     account_creationDate := 1500000000000;
     account_operationsCount := Z.of_nat (length ops);
     account_operations := ops;
     account_pendingOperations := [];
     account_starred := false;
     account_swapHistory := [] |}.

Definition operation (aid hash type : string) (date value : Z) : Operation :=
  {| op_id := aid ++ "-" ++ hash ++ "-" ++ type;
     op_hash := hash;
     op_date := date;
     op_type := type;
     op_value := value;
     op_accountId := aid;
     op_extra := [] |}.

Definition dai_account : TokenAccount :=
  account "js:2:ethereum:0xAB:+dai" dai 1000
    [operation "js:2:ethereum:0xAB:+dai" "0xaa" "IN" 1590000000000 1000].

Definition cdai_account : TokenAccount :=
  account "js:2:ethereum:0xAB:+cdai" cdai 3
    [operation "js:2:ethereum:0xAB:+cdai" "0xbb" "IN" 1595000000000 5;
     operation "js:2:ethereum:0xAB:+cdai" "0xcc" "OUT" 1596000000000 2;
     operation "js:2:ethereum:0xAB:+cdai" "0xdd" "FEES" 1596000000000 1].

(** The table that [preload] leaves when the oracle is up. *)
Definition preloaded : gmap string Preloaded :=
  {[ token_id cdai := {| rate := "0.5"; supplyAPY := "2.35%" |} ]}.

Definition up : Env := env true oracle_up.
Definition down : Env := env true oracle_down.

Definition both : list TokenAccount := [dai_account; cdai_account].

(** The entry that [inferSubAccountsCompound] writes for DAI on [both]. *)
Definition dai_entry : Compound :=
  {| tokenAccount := Some dai_account;
     token := dai;
     ctoken := cdai;
     ctokenAccount := Some cdai_account |}.

Definition inferred : Obj Compound := [(token_id dai, dai_entry)].

(** The rates of the three operations of [cdai_account] when the oracle is
    up. *)
Definition rates : list HistoRate :=
  Eval vm_compute in
    match fetchHistoricalRates up cdai
            (map op_date (account_operations cdai_account)) with
    | Ok r => r
    | Err _ => []
    end.

(** [both], digested when the oracle is up. *)
Definition digested : list TokenAccount :=
  Eval vm_compute in
    match digestTokenAccounts up preloaded ethereum both with
    | Ok r => array_of both r
    | Err _ => []
    end.

(** The placeholder that [prepareTokenAccounts] makes for cDAI, and the
    list it gives for a DAI account alone. *)
Definition placeholder : TokenAccount := emptyCTokenAccount up cdai.
Definition prepared : list TokenAccount := [dai_account; placeholder].

(** A registry that lists the tokens and resolves no id. *)
Definition unresolved : Env :=
  {| getEnv_COMPOUND := true;
     listTokens := [dai; cdai];
     listTokensForCryptoCurrency := fun _ => [dai; cdai];
     getTokenById := fun _ => None;
     network := oracle_up;
     mergeOps := merge_ops;
     BigNumber_of_string := of_string;
     BigNumber_toString := to_string;
     Date_now := 1600000000000 |}.

(** A table that holds the rate 2 for cDAI, and [both] digested with it. *)
Definition doubled : gmap string Preloaded :=
  {[ token_id cdai := {| rate := "2"; supplyAPY := "2.35%" |} ]}.

Definition digested_doubled : list TokenAccount :=
  Eval vm_compute in
    match digestTokenAccounts up doubled ethereum both with
    | Ok r => array_of both r
    | Err _ => []
    end.

(** [both] digested with an empty table and an oracle that has no entry. *)
Definition blank : Env := env true oracle_empty.

Definition digested_blank : list TokenAccount :=
  Eval vm_compute in
    match digestTokenAccounts blank ∅ ethereum both with
    | Ok r => array_of both r
    | Err _ => []
    end.

End Sample.


(** * The explorer API of the ethereum family, over zkSync

    The second module of the source: [apiForCurrency] and the methods of the
    object it returns.  A promise is an [Outcome]; the loop of
    [getTransactionsRollup] ends when the rollup answers with an empty page,
    so it runs here on fuel, [None] being a loop that is still running. *)

Module Api.

(** What a rejected promise carries: [status] is [e.status]. *)
Record Failure := {
  status : option Z;
  message : string
}.

Inductive Outcome (A : Type) :=
| Resolved (a : A)
| Rejected (e : Failure).
Arguments Resolved {A} a.
Arguments Rejected {A} e.

(** [Tx], as the source declares it; a [BigNumber] is an integer here. *)
Record TransferEvent := {
  event_contract : string;
  event_from : string;
  event_to : string;
  event_count : Z;
  event_decimal : option Z;
  event_symbol : option string
}.

Record TransferEvents := {
  events_list : list TransferEvent;
  events_truncated : bool
}.

Record Action := {
  action_from : string;
  action_to : string;
  action_value : Z;
  action_gas : option Z;
  action_gas_used : option Z
}.

Record TxBlock := {
  block_hash : string;
  block_height : Z;
  block_time : string
}.

Record Tx := {
  tx_hash : string;
  tx_status : option Z;
  tx_received_at : option string;
  tx_nonce : string;
  tx_value : Z;
  tx_gas : Z;
  tx_gas_price : Z;
  tx_from : string;
  tx_to : string;
  tx_cumulative_gas_used : option Z;
  tx_gas_used : option Z;
  tx_transfer_events : option TransferEvents;
  tx_actions : option (list Action);
  tx_block : option TxBlock
}.

(** What the methods that list transactions resolve to. *)
Record Page := {
  truncated : bool;
  txs : list Tx
}.

(** The state of an account on zkSync: [id] is missing for an account that
    the rollup does not know. *)
Record AccountState := {
  state_id : option Z;
  committed_nonce : Z
}.

(** A value that [JSON.parse] gives; the keys of an object are distinct. *)
#[local] Unset Elimination Schemes.
Inductive JSON :=
| JNull
| JBool (b : bool)
| JNumber (n : Q)
| JString (s : string)
| JArray (l : list JSON)
| JObject (fields : list (string * JSON)).
#[local] Set Elimination Schemes.

Record Approval := {
  sender : string;
  value : string
}.

(** The services behind the methods:
    - [blockchainBaseURL] of [./Ledger];
    - [getState], [zksync.getDefaultProvider("mainnet")] then [getState];
    - [explorer_transactions], the GET on
      [<base>/addresses/<address>/transactions] for a base URL, an address,
      a block hash and a batch size;
    - [rollup_approvals], the GET on [/erc20/approvals];
    - [getBatchedTransactions], the method of that name, for an address, a
      limit and an offset. *)
Record Services := {
  blockchainBaseURL : CryptoCurrency -> option string;
  getState : string -> Outcome AccountState;
  explorer_transactions :
    string -> string -> option string -> Z -> Outcome Page;
  rollup_approvals : string -> string -> Outcome JSON;
  getBatchedTransactions : string -> Z -> Z -> Outcome (list Tx)
}.

Section Methods.

Variable S : Services.

(** [apiForCurrency] throws when the currency has no base URL; the methods
    below are those of the object it returns otherwise. *)
Definition apiForCurrency (currency : CryptoCurrency) : Outcome string :=
  match truthy (blockchainBaseURL S currency) with
  | Some ethBaseURL => Resolved ethBaseURL
  | None =>
      Rejected {| status := None;
                  message := "LedgerAPINotAvailable "
                             ++ currency_id currency |}
  end.

Variable ethBaseURL : string.

(** [!accountState.id]: a missing id, and 0. *)
Definition has_id (accountState : AccountState) : bool :=
  match state_id accountState with
  | Some id => negb (id =? 0)
  | None => false
  end.

(** [(tx) => !tx.block || tx.block.hash !== block_hash] *)
Definition not_in_block (hash : string) (tx : Tx) : bool :=
  match tx_block tx with
  | None => true
  | Some block => negb (bool_decide (block_hash block = hash))
  end.

Definition getTransactionsEthereum (address : string)
  (block_hash : option string) (batch_size : option Z) : Outcome Page :=
  match explorer_transactions S ethBaseURL address block_hash
          (default 2000 batch_size) with
  | Rejected e => Rejected e
  | Resolved data =>
      match truthy block_hash with
      | Some hash =>
          Resolved {| truncated := truncated data;
                      txs := List.filter (not_in_block hash) (txs data) |}
      | None => Resolved data
      end
  end.

(** The [for (let offset = 0; ; offset += limit)] of
    [getTransactionsRollup]. *)
Fixpoint rollupLoop (fuel : nat) (address : string) (offset : Z)
  (txs : list Tx) : option (Outcome (list Tx)) :=
  match fuel with
  | O => None
  | Datatypes.S fuel' =>
      match getBatchedTransactions S address 100 offset with
      | Rejected e => Some (Rejected e)
      | Resolved txBatch =>
          let txs := (txs ++ txBatch)%list in
          match txBatch with
          | [] => Some (Resolved txs)
          | _ => rollupLoop fuel' address (offset + 100) txs
          end
      end
  end.

Definition getTransactionsRollup (fuel : nat) (address : string)
  (block_hash : option string) : option (Outcome Page) :=
  match truthy block_hash with
  | Some _ => Some (Resolved {| truncated := false; txs := [] |})
  | None =>
      match rollupLoop fuel address 0 [] with
      | None => None
      | Some (Rejected e) => Some (Rejected e)
      | Some (Resolved txs) =>
          Some (Resolved {| truncated := false; txs := txs |})
      end
  end.

Definition getTransactions (fuel : nat) (address : string)
  (block_hash : option string) (batch_size : option Z)
  : option (Outcome Page) :=
  match getState S address with
  | Rejected e => Some (Rejected e)
  | Resolved accountState =>
      if negb (has_id accountState)
      then Some (getTransactionsEthereum address block_hash
                   (Some (default 2000 batch_size)))
      else getTransactionsRollup fuel address block_hash
  end.

(** [m.sender] and [m.value] of an object. *)
Fixpoint field (k : string) (fields : list (string * JSON)) : option JSON :=
  match fields with
  | [] => None
  | (k', v) :: fields' => if decide (k' = k) then Some v else field k fields'
  end.

(** The callback of the [map] in [getERC20ApprovalsPerContract]: [None] is
    its [undefined]. *)
Definition approval_of (m : JSON) : option Approval :=
  match m with
  | JObject fields =>
      match field "sender" fields, field "value" fields with
      | Some (JString sender), Some (JString value) =>
          Some {| sender := sender; value := value |}
      | _, _ => None
      end
  | _ => None
  end.

Definition getERC20ApprovalsPerContract (owner contract : string)
  : Outcome (list Approval) :=
  let attempt :=
    match rollup_approvals S owner contract with
    | Rejected e => Rejected e
    | Resolved (JArray data) => Resolved (omap approval_of data)
    | Resolved _ => Rejected {| status := None; message := "TypeError" |}
    end in
  match attempt with
  | Rejected e =>
      if decide (status e = Some 404) then Resolved [] else Rejected e
  | Resolved approvals => Resolved approvals
  end.

End Methods.

(** A rollup with 250 transactions, served by pages, and an explorer with
    three transactions, two of them in the block 0xb2. *)
Definition tx (hash : string) (block : option string) : Tx :=
  {| tx_hash := hash;
     tx_status := Some 1;
     tx_received_at := None;
     tx_nonce := "0x01";
     tx_value := 0;
     tx_gas := 500;
     tx_gas_price := 1;
     tx_from := "0xaa";
     tx_to := "0xbb";
     tx_cumulative_gas_used := None;
     tx_gas_used := None;
     tx_transfer_events := None;
     tx_actions := None;
     tx_block :=
       option_map (fun h => {| block_hash := h; block_height := 7;
                               block_time := "2020-10-01T00:00:00Z" |})
                  block |}.

Definition numbered (n : nat) : Tx :=
  tx (Sample.to_string (inject_Z (Z.of_nat n))) None.

Definition history (address : string) (limit offset : Z)
  : Outcome (list Tx) :=
  Resolved (map numbered
              (seq (Z.to_nat offset)
                 (Nat.min (Z.to_nat limit) (250 - Z.to_nat offset)))).

Definition services (known : option Z) (approvals : Outcome JSON)
  : Services :=
  {| blockchainBaseURL := fun c =>
       if decide (currency_id c = "ethereum")
       then Some "https://explorers.api.live.ledger.com/blockchain/v3/eth"
       else None;
     getState := fun _ =>
       Resolved {| state_id := known; committed_nonce := 12 |};
     explorer_transactions := fun _ _ _ _ =>
       Resolved {| truncated := true;
                   txs := [tx "0x01" (Some "0xb1"); tx "0x02" (Some "0xb2");
                           tx "0x03" None; tx "0x04" (Some "0xb2")] |};
     rollup_approvals := fun _ _ => approvals;
     getBatchedTransactions := history |}.

(** The pages of [history]. *)
Definition pages (i : nat) : list Tx :=
  map numbered (seq (100 * i) (Nat.min 100 (250 - 100 * i))).

(** A rollup whose pages are never empty. *)
Definition endless : Services :=
  {| blockchainBaseURL := fun _ => None;
     getState := fun _ =>
       Resolved {| state_id := Some 42; committed_nonce := 12 |};
     explorer_transactions := fun _ _ _ _ =>
       Resolved {| truncated := false; txs := [] |};
     rollup_approvals := fun _ _ => Resolved (JArray []);
     getBatchedTransactions := fun _ _ offset =>
       Resolved [numbered (Z.to_nat offset)] |}.

(** An answer of the rollup with one approval that is well formed. *)
Definition answer : list JSON :=
  [JObject [("sender", JString "0x01"); ("value", JString "10")];
   JNull;
   JObject [("sender", JNumber 1); ("value", JString "3")];
   JArray [JString "0x02"; JString "7"];
   JObject [("sender", JString "0x03")]].

Definition not_found : Failure :=
  {| status := Some 404; message := "Not Found" |}.

Definition unavailable : Failure :=
  {| status := Some 503; message := "Service Unavailable" |}.

End Api.

(** ** Objects, arrays and results *)

Lemma obj_get_set {V} (k k' : string) (v : V) (o : Obj V) :
  obj_get k (obj_set k' v o) = if decide (k' = k) then Some v else obj_get k o.
Proof.
  induction o as [|[k0 v0] o IH]; simpl.
  - reflexivity.
  - destruct (decide (k0 = k')) as [->|Hne]; simpl.
    + destruct (decide (k' = k)); reflexivity.
    + rewrite IH. destruct (decide (k0 = k)) as [->|]; [|reflexivity].
      destruct (decide (k' = k)); [congruence|reflexivity].
Qed.

Lemma obj_set_not_nil {V} (k : string) (v : V) (o : Obj V) :
  obj_set k v o <> [].
Proof. destruct o as [|[k0 v0] o]; simpl; [|destruct (decide _)]; discriminate. Qed.

Lemma obj_get_In {V} (k : string) (v : V) (o : Obj V) :
  obj_get k o = Some v -> In v (obj_values o).
Proof.
  induction o as [|[k0 v0] o IH]; simpl; [discriminate|].
  destruct (decide (k0 = k)); [intros [= ->]; now left | right; auto].
Qed.

Lemma obj_values_get {V} (v : V) (o : Obj V) :
  In v (obj_values o) -> exists k, In (k, v) o.
Proof.
  unfold obj_values. rewrite in_map_iff. intros [[k v'] [Hv Hin]].
  simpl in Hv. subst. eauto.
Qed.

Lemma bind_Ok {A B} (m : Result A) (f : A -> Result B) (b : B) :
  m ≫= f = Ok b -> exists a, m = Ok a /\ f a = Ok b.
Proof. destruct m as [a|e]; simpl; [eauto | discriminate]. Qed.

Lemma bind_Err {A B} (m : Result A) (f : A -> Result B) :
  is_Err m -> is_Err (m ≫= f).
Proof. intros [e ->]. exists e. reflexivity. Qed.

Ltac inv_bind H :=
  let a := fresh "a" in
  let Ha := fresh "Ha" in
  apply bind_Ok in H; destruct H as (a & Ha & H).

Section ArrayMap.

Context {A B : Type} (fn : A -> Result B).

Lemma Array_map_Forall2 (items : list A) (bs : list B) :
  Array_map fn items = Ok bs <-> Forall2 (fun x b => fn x = Ok b) items bs.
Proof.
  revert bs. induction items as [|x items IH]; intros bs; simpl.
  - split; [intros [= <-]; constructor | inversion 1; reflexivity].
  - split.
    + intros H. inv_bind H. inv_bind H. injection H as <-.
      constructor; [assumption | now apply IH].
    + inversion 1 as [|? b ? bs' Hx Hrest]; subst.
      rewrite Hx. simpl. apply IH in Hrest. rewrite Hrest. reflexivity.
Qed.

Lemma Array_map_length (items : list A) (bs : list B) :
  Array_map fn items = Ok bs -> length bs = length items.
Proof.
  rewrite Array_map_Forall2. intros H. symmetry.
  induction H; simpl; congruence.
Qed.

Lemma Array_map_Err (items : list A) (x : A) :
  In x items -> is_Err (fn x) -> is_Err (Array_map fn items).
Proof.
  induction items as [|y items IH]; simpl; [tauto|].
  intros [->|Hin] Herr.
  - now apply bind_Err.
  - destruct (fn y) as [b|e]; simpl; [|now exists e].
    destruct (IH Hin Herr) as [e ->]. now exists e.
Qed.

Lemma Array_map_all_Ok (items : list A) :
  (forall x, In x items -> is_Ok (fn x)) -> is_Ok (Array_map fn items).
Proof.
  induction items as [|y items IH]; simpl; intros H.
  - now exists [].
  - destruct (H y (or_introl eq_refl)) as [b ->]. simpl.
    destruct IH as [bs ->]; [intros; apply H; now right|].
    now exists (b :: bs).
Qed.

End ArrayMap.

(** ** Rounding *)

Lemma integerValue_nonneg (x : Q) :
  (0 <= x)%Q -> integerValue x = Qfloor (x + (1 # 2)).
Proof.
  intros H. unfold integerValue.
  apply Qle_bool_iff in H. now rewrite H.
Qed.

Lemma integerValue_neg (x : Q) :
  (x < 0)%Q -> integerValue x = - Qfloor (- x + (1 # 2)).
Proof.
  intros H. unfold integerValue.
  destruct (Qle_bool 0 x) eqn:Hle; [|reflexivity].
  apply Qle_bool_iff in Hle. exfalso. eapply Qlt_not_le; eassumption.
Qed.

Lemma integerValue_rounds (x : Q) :
  rounds_half_away_from_zero x (integerValue x).
Proof.
  split; intros H.
  - rewrite (integerValue_nonneg x H).
    pose proof (Qfloor_le (x + (1 # 2))) as Hlo.
    pose proof (Qlt_floor (x + (1 # 2))) as Hhi.
    set (z := Qfloor (x + (1 # 2))) in *.
    rewrite inject_Z_plus in Hhi. change (inject_Z 1) with 1%Q in Hhi.
    split; lra.
  - rewrite (integerValue_neg x H).
    pose proof (Qfloor_le (- x + (1 # 2))) as Hlo.
    pose proof (Qlt_floor (- x + (1 # 2))) as Hhi.
    set (z := Qfloor (- x + (1 # 2))) in *.
    rewrite inject_Z_plus in Hhi. change (inject_Z 1) with 1%Q in Hhi.
    rewrite inject_Z_opp.
    split; lra.
Qed.

Lemma rounds_half_away_from_zero_unique (x : Q) (r r' : Z) :
  rounds_half_away_from_zero x r -> rounds_half_away_from_zero x r' -> r = r'.
Proof.
  intros [Hp Hn] [Hp' Hn'].
  assert (Hlt : forall a b : Z,
             (inject_Z a < inject_Z b + 1)%Q -> (a <= b)%Z).
  { intros a b H. change 1%Q with (inject_Z 1) in H.
    rewrite <- inject_Z_plus in H. rewrite <- Zlt_Qlt in H. lia. }
  destruct (Qlt_le_dec x 0) as [Hx|Hx].
  - destruct (Hn Hx), (Hn' Hx).
    apply Z.le_antisymm; apply Hlt; lra.
  - destruct (Hp Hx), (Hp' Hx).
    apply Z.le_antisymm; apply Hlt; lra.
Qed.

Lemma integerValue_le_0 (x : Q) : (0 <= x)%Q -> 0 <= integerValue x.
Proof.
  intros H. rewrite (integerValue_nonneg x H).
  change 0 with (Qfloor 0). apply Qfloor_resp_le. lra.
Qed.

(** ** What [inferSubAccountsCompound] finds *)

Section Infer.

Variable E : Env.
Variable subAccounts : list TokenAccount.

Lemma inferStep_cases (o : Obj Compound) (c : TokenCurrency) :
  (inferStep E subAccounts o c = Ok o /\ forall k, ~ pairs subAccounts c k)
  \/ (exists k, pairs subAccounts c k
        /\ inferStep E subAccounts o c
           = (tok ← getTokenById_or_throw E k;
              Ok (obj_set k (entry_of subAccounts c k tok) o))).
Proof.
  unfold inferStep, pairs, entry_of.
  destruct (truthy (token_compoundFor c)) as [k|] eqn:Hk.
  - destruct (find_tokenAccount k subAccounts) as [ta|] eqn:Hta.
    + right. exists k. split; [split; [reflexivity | left; eauto]|].
      now rewrite Hta.
    + destruct (find_ctokenAccount c subAccounts) as [ca|] eqn:Hca.
      * right. exists k. split; [split; [reflexivity | right; eauto]|].
        now rewrite Hta.
      * left. split; [reflexivity|].
        intros k' [[= <-] [H|H]].
        -- rewrite Hta in H. now destruct H.
        -- now destruct H.
  - left. split; [reflexivity|]. intros k' [H _]. discriminate.
Qed.

(** The loop succeeds exactly when the registry resolves the wrapped token of
    every cToken that pairs. *)
Lemma inferLoop_Ok_iff (tokens : list TokenCurrency) (o : Obj Compound) :
  is_Ok (inferLoop E subAccounts tokens o)
  <-> (forall c k,
         In c tokens -> pairs subAccounts c k -> is_Some (getTokenById E k)).
Proof.
  revert o. induction tokens as [|c tokens IH]; intros o; simpl.
  - split; [intros _ ? ? [] | intros _; now exists o].
  - destruct (inferStep_cases o c) as [[-> Hno]|(k & Hk & ->)]; simpl.
    + rewrite IH. split.
      * intros H c' k' [<-|Hin] Hp; [now apply Hno in Hp | eauto].
      * intros H c' k' Hin. apply H. now right.
    + unfold getTokenById_or_throw.
      destruct (getTokenById E k) as [tok|] eqn:Htok; simpl.
      * rewrite IH. split.
        -- intros H c' k' [<-|Hin] Hp; [|eauto].
           destruct Hk as [Hk _], Hp as [Hk' _].
           rewrite Hk in Hk'. injection Hk' as <-. rewrite Htok. eauto.
        -- intros H c' k' Hin. apply H. now right.
      * split.
        -- intros [m [=]].
        -- intros H. destruct (H c k (or_introl eq_refl) Hk) as [tok Htok'].
           congruence.
Qed.

(** An entry of the result was in the object at the start or was written for
    a cToken that pairs. *)
Lemma inferLoop_get (tokens : list TokenCurrency) (o m : Obj Compound)
  (k : string) (e : Compound) :
  inferLoop E subAccounts tokens o = Ok m ->
  obj_get k m = Some e ->
  obj_get k o = Some e
  \/ exists c tok, In c tokens /\ pairs subAccounts c k
       /\ getTokenById E k = Some tok /\ e = entry_of subAccounts c k tok.
Proof.
  revert o. induction tokens as [|c tokens IH]; intros o; simpl.
  - intros [= ->] H. now left.
  - intros Hloop Hget. apply bind_Ok in Hloop.
    destruct Hloop as (o' & Hstep & Hloop).
    destruct (IH _ Hloop Hget) as [Hold|(c' & tok & Hin & Hp & Htok & ->)].
    + destruct (inferStep_cases o c) as [[Hs Hno]|(k' & Hk' & Hs)];
        rewrite Hs in Hstep.
      * injection Hstep as <-. now left.
      * apply bind_Ok in Hstep. destruct Hstep as (tok & Htok & [= <-]).
        rewrite obj_get_set in Hold. destruct (decide (k' = k)) as [->|].
        -- injection Hold as <-. right. exists c, tok.
           split; [now left|]. split; [exact Hk'|]. split; [|reflexivity].
           unfold getTokenById_or_throw in Htok.
           destruct (getTokenById E k); congruence.
        -- now left.
    + right. exists c', tok. split; [now right|]. auto.
Qed.

(** A key that is set stays set, and every cToken that pairs sets its key. *)
Lemma inferLoop_keeps (tokens : list TokenCurrency) (o m : Obj Compound)
  (k : string) :
  inferLoop E subAccounts tokens o = Ok m ->
  is_Some (obj_get k o) -> is_Some (obj_get k m).
Proof.
  revert o. induction tokens as [|c tokens IH]; intros o; simpl.
  - now intros [= ->].
  - intros Hloop Hget. inv_bind Hloop. apply (IH _ Hloop).
    destruct (inferStep_cases o c) as [[Hs Hno]|(k' & Hk' & Hs)];
      rewrite Hs in Ha.
    + now injection Ha as <-.
    + inv_bind Ha. injection Ha as <-. rewrite obj_get_set.
      destruct (decide (k' = k)); eauto.
Qed.

Lemma inferLoop_sets (tokens : list TokenCurrency) (o m : Obj Compound)
  (c : TokenCurrency) (k : string) :
  inferLoop E subAccounts tokens o = Ok m ->
  In c tokens -> pairs subAccounts c k -> is_Some (obj_get k m).
Proof.
  revert o. induction tokens as [|c' tokens IH]; intros o; simpl; [tauto|].
  intros Hloop [->|Hin] Hp; inv_bind Hloop; [|eauto].
  apply (inferLoop_keeps _ _ _ _ Hloop).
  destruct (inferStep_cases o c) as [[Hs Hno]|(k' & Hk' & Hs)].
  - now apply Hno in Hp.
  - rewrite Hs in Ha. inv_bind Ha. injection Ha as <-.
    destruct Hp as [Hk _], Hk' as [Hk' _]. rewrite Hk in Hk'.
    injection Hk' as <-. rewrite obj_get_set.
    destruct (decide (k = k)); [eauto | congruence].
Qed.

End Infer.

(** ** What [digestTokenAccounts] does to one account *)

Section Digest.

Variable E : Env.
Variable compoundPreloadedValue : gmap string Preloaded.

Lemma remapOperations_zip (a : TokenAccount) (ops : list Operation)
  (rates : list HistoRate) :
  length ops = length rates ->
  remapOperations E a ops rates
  = Ok (omap (fun p => remapOperation E a (fst p) (snd p)) (zip ops rates)).
Proof.
  revert rates. induction ops as [|op ops IH]; intros [|r rates]; simpl;
    try discriminate; [reflexivity..|].
  intros [= Hlen]. rewrite (IH _ Hlen). simpl.
  destruct (remapOperation E a op r); reflexivity.
Qed.

Lemma fetchHistoricalRates_each (t : TokenCurrency) (dates : list Z)
  (rates : list HistoRate) :
  fetchHistoricalRates E t dates = Ok rates
  <-> Forall2 (fun d r => fetchHistoricalRate E t d = Ok r) dates rates.
Proof. apply Array_map_Forall2. Qed.

(** The merged account, field by field. *)
Lemma digestTokenAccount_merges (m : Obj Compound) (a : TokenAccount)
  (c : Compound) (ca : TokenAccount) (rates : list HistoRate) :
  merges m a c ca ->
  fetchHistoricalRates E (ctoken c) (map op_date (account_operations ca))
  = Ok rates ->
  exists a',
    digestTokenAccount E compoundPreloadedValue m a = Ok (Some a')
    /\ account_id a' = account_id a
    /\ account_token a' = account_token a
    /\ account_balance a'
       = account_balance a
         + integerValue (times (account_balance ca)
                           (getCTokenRate E compoundPreloadedValue (ctoken c)))
    /\ account_spendableBalance a' = account_balance a
    /\ account_operations a'
       = mergeOps E (account_operations a)
           (omap (fun p => remapOperation E a (fst p) (snd p))
                 (zip (account_operations ca) rates)).
Proof.
  intros (Hplain & Hget & Hca) Hrates.
  unfold digestTokenAccount. rewrite Hplain, Hget, Hca, Hrates. simpl.
  rewrite remapOperations_zip.
  - simpl. eexists. split; [reflexivity|]. simpl. auto.
  - apply Array_map_length in Hrates. now rewrite Hrates, length_map.
Qed.

(** A merge fails exactly when a historical rate cannot be fetched. *)
Lemma digestTokenAccount_merges_Err (m : Obj Compound) (a : TokenAccount)
  (c : Compound) (ca : TokenAccount) :
  merges m a c ca ->
  is_Err (fetchHistoricalRates E (ctoken c)
            (map op_date (account_operations ca))) ->
  is_Err (digestTokenAccount E compoundPreloadedValue m a).
Proof.
  intros (Hplain & Hget & Hca) [e He].
  unfold digestTokenAccount. rewrite Hplain, Hget, Hca, He. now exists e.
Qed.

(** What comes out of the callback has the token and the id of what went
    in; a cToken account comes out only as it is, and only when the wrapped
    token has no entry. *)
Lemma digestTokenAccount_Some (m : Obj Compound) (a a' : TokenAccount) :
  digestTokenAccount E compoundPreloadedValue m a = Ok (Some a') ->
  account_token a' = account_token a
  /\ account_id a' = account_id a
  /\ (forall k, truthy (token_compoundFor (account_token a)) = Some k ->
        obj_get k m = None /\ a' = a)
  /\ (a' = a \/ exists c ca, merges m a c ca).
Proof.
  unfold digestTokenAccount, merges.
  destruct (truthy (token_compoundFor (account_token a))) as [k|] eqn:Hk.
  - destruct (obj_get k m) eqn:Hget; intros [= <-].
    split; [reflexivity|]. split; [reflexivity|]. split; [|now left].
    intros k' [= <-]. now split.
  - destruct (obj_get (token_id (account_token a)) m) as [c|] eqn:Hget.
    + destruct (ctokenAccount c) as [ca|] eqn:Hca.
      * intros H. apply bind_Ok in H. destruct H as (rates & Hr & H).
        apply bind_Ok in H. destruct H as (newOps & Hn & [= <-]).
        simpl. split; [reflexivity|]. split; [reflexivity|].
        split; [discriminate|]. right. eauto.
      * intros [= <-]. split; [reflexivity|]. split; [reflexivity|].
        split; [discriminate | now left].
    + intros [= <-]. split; [reflexivity|]. split; [reflexivity|].
      split; [discriminate | now left].
Qed.

(** An account that is neither dropped nor merged goes through as it is. *)
Lemma digestTokenAccount_through (m : Obj Compound) (a : TokenAccount) :
  (forall k, truthy (token_compoundFor (account_token a)) = Some k ->
     obj_get k m = None) ->
  (forall c, obj_get (token_id (account_token a)) m = Some c ->
     ctokenAccount c = None) ->
  digestTokenAccount E compoundPreloadedValue m a = Ok (Some a).
Proof.
  intros Hd Hp. unfold digestTokenAccount.
  destruct (truthy (token_compoundFor (account_token a))) as [k|].
  - now rewrite (Hd k eq_refl).
  - destruct (obj_get (token_id (account_token a)) m) as [c|]; [|reflexivity].
    now rewrite (Hp c eq_refl).
Qed.

(** When the module is enabled, the result is read off the inferred pairs. *)
Lemma digestTokenAccounts_open (currency : CryptoCurrency)
  (subAccounts : list TokenAccount) (r : Returned) :
  disabled E currency = false ->
  digestTokenAccounts E compoundPreloadedValue currency subAccounts = Ok r ->
  exists m,
    inferSubAccountsCompound E currency subAccounts = Ok m
    /\ ((m = [] /\ r = SameArray)
        \/ (m <> []
            /\ exists all,
                Forall2
                  (fun a b =>
                     digestTokenAccount E compoundPreloadedValue m a = Ok b)
                  subAccounts all
                /\ r = NewArray (omap id all))).
Proof.
  intros Hon. unfold digestTokenAccounts. rewrite Hon.
  intros H. apply bind_Ok in H. destruct H as (m & Hm & H).
  exists m. split; [assumption|].
  destruct m as [|p m].
  - injection H as <-. now left.
  - right. split; [discriminate|].
    apply bind_Ok in H. destruct H as (all & Hall & [= <-]).
    exists all. split; [|reflexivity].
    now apply Array_map_Forall2.
Qed.

Lemma Forall2_omap_id_In {A B} (f : A -> Result (option B)) (l : list A)
  (all : list (option B)) (b : B) :
  Forall2 (fun a o => f a = Ok o) l all ->
  In b (omap id all) <-> exists a, In a l /\ f a = Ok (Some b).
Proof.
  induction 1 as [|a o l all Hao Hrest IH]; simpl.
  - split; [intros [] | intros (a & [] & _)].
  - destruct o as [b'|]; simpl.
    + rewrite IH. split.
      * intros [<-|(a0 & Hin & Ha0)]; eauto.
      * intros (a0 & [<-|Hin] & Ha0); [left; congruence | right; eauto].
    + rewrite IH. split.
      * intros (a0 & Hin & Ha0); eauto.
      * intros (a0 & [<-|Hin] & Ha0); [congruence | eauto].
Qed.

(** The accounts of the result when the module is enabled. *)
Lemma digestTokenAccounts_In (currency : CryptoCurrency)
  (subAccounts : list TokenAccount) (r : Returned) (m : Obj Compound)
  (a' : TokenAccount) :
  disabled E currency = false ->
  digestTokenAccounts E compoundPreloadedValue currency subAccounts = Ok r ->
  inferSubAccountsCompound E currency subAccounts = Ok m ->
  In a' (array_of subAccounts r)
  <-> exists a, In a subAccounts
        /\ digestTokenAccount E compoundPreloadedValue m a = Ok (Some a').
Proof.
  intros Hon Hd Hm.
  destruct (digestTokenAccounts_open _ _ _ Hon Hd) as (m' & Hm' & Hcase).
  rewrite Hm in Hm'. injection Hm' as <-.
  destruct Hcase as [[-> ->]|(Hne & all & Hall & ->)]; simpl.
  - split.
    + intros Hin. exists a'. split; [assumption|].
      apply digestTokenAccount_through; intros; simpl in *; congruence.
    + intros (a & Hin & Ha).
      rewrite digestTokenAccount_through in Ha
        by (intros; simpl in *; congruence).
      congruence.
  - now apply Forall2_omap_id_In.
Qed.

(** Every account is handled: the result fails when the callback fails on
    one of them. *)
Lemma digestTokenAccounts_Err (currency : CryptoCurrency)
  (subAccounts : list TokenAccount) (m : Obj Compound) (a : TokenAccount) :
  disabled E currency = false ->
  inferSubAccountsCompound E currency subAccounts = Ok m ->
  In a subAccounts ->
  is_Err (digestTokenAccount E compoundPreloadedValue m a) ->
  is_Err (digestTokenAccounts E compoundPreloadedValue currency subAccounts).
Proof.
  intros Hon Hm Hin Herr. unfold digestTokenAccounts.
  rewrite Hon, Hm. simpl. destruct m as [|p m].
  - destruct Herr as [e He].
    rewrite digestTokenAccount_through in He
      by (intros; simpl in *; congruence).
    discriminate.
  - apply bind_Err. unfold promiseAllBatched.
    eapply Array_map_Err; eassumption.
Qed.

End Digest.

(** ** Merged accounts *)

Section Merge.

Variable E : Env.
Variable compoundPreloadedValue : gmap string Preloaded.
Variable currency : CryptoCurrency.
Variable subAccounts : list TokenAccount.

(** When [digestTokenAccounts] returns, each account that merges has its
    historical rates and its merged account in the result. *)
Lemma digestTokenAccounts_merged (r : Returned) (m : Obj Compound)
  (a : TokenAccount) (c : Compound) (ca : TokenAccount) :
  disabled E currency = false ->
  digestTokenAccounts E compoundPreloadedValue currency subAccounts = Ok r ->
  inferSubAccountsCompound E currency subAccounts = Ok m ->
  In a subAccounts ->
  merges m a c ca ->
  exists rates a',
    fetchHistoricalRates E (ctoken c) (map op_date (account_operations ca))
    = Ok rates
    /\ In a' (array_of subAccounts r)
    /\ digestTokenAccount E compoundPreloadedValue m a = Ok (Some a')
    /\ account_balance a'
       = account_balance a
         + integerValue (times (account_balance ca)
                           (getCTokenRate E compoundPreloadedValue (ctoken c)))
    /\ account_spendableBalance a' = account_balance a
    /\ account_operations a'
       = mergeOps E (account_operations a)
           (omap (fun p => remapOperation E a (fst p) (snd p))
                 (zip (account_operations ca) rates)).
Proof.
  intros Hon Hd Hm Hin Hmerges.
  destruct (fetchHistoricalRates E (ctoken c)
              (map op_date (account_operations ca))) as [rates|e] eqn:Hrates.
  - destruct (digestTokenAccount_merges E compoundPreloadedValue
                m a c ca rates Hmerges Hrates)
      as (a' & Ha' & _ & _ & Hbal & Hsp & Hops).
    exists rates, a'. split; [reflexivity|]. split; [|auto].
    apply (digestTokenAccounts_In E compoundPreloadedValue
             currency subAccounts r m a' Hon Hd Hm).
    eauto.
  - exfalso.
    destruct (digestTokenAccounts_Err E compoundPreloadedValue
                currency subAccounts m a Hon Hm Hin) as [e' He'].
    + eapply digestTokenAccount_merges_Err; [eassumption|].
      rewrite Hrates. now exists e.
    + congruence.
Qed.

End Merge.

(** ** The module at work on the concrete environment *)

Example sample_preload :
  preload Sample.up ∅ = Ok (Sample.preloaded, Sample.preloaded).
Proof. vm_compute. reflexivity. Qed.

Example sample_inferred :
  inferSubAccountsCompound Sample.up Sample.ethereum Sample.both
  = Ok Sample.inferred.
Proof. vm_compute. reflexivity. Qed.

Example sample_digested :
  digestTokenAccounts Sample.up Sample.preloaded Sample.ethereum Sample.both
  = Ok (NewArray Sample.digested).
Proof. vm_compute. reflexivity. Qed.

(** A DAI account alone gets the placeholder of cDAI, and the placeholder is
    gone after the digestion. *)
Example sample_placeholder :
  prepareTokenAccounts Sample.up Sample.ethereum [Sample.dai_account]
  = Ok (NewArray [Sample.dai_account;
                  emptyCTokenAccount Sample.up Sample.cdai])
  /\ exists a,
      digestTokenAccounts Sample.up Sample.preloaded Sample.ethereum
        [Sample.dai_account; emptyCTokenAccount Sample.up Sample.cdai]
      = Ok (NewArray [a])
      /\ account_balance a = account_balance Sample.dai_account
      /\ account_operations a = account_operations Sample.dai_account.
Proof.
  split; [vm_compute; reflexivity|].
  eexists. split; [vm_compute; reflexivity|]. split; reflexivity.
Qed.

(** An oracle without an entry for cDAI: the table holds the rate "0", the
    merged balance is the balance of the DAI account and every remapped
    operation has value 0. *)
Example sample_oracle_without_entry :
  exists table a,
    preload (Sample.env true Sample.oracle_empty) ∅ = Ok (table, table)
    /\ table !! token_id Sample.cdai = Some {| rate := "0"; supplyAPY := "" |}
    /\ digestTokenAccounts (Sample.env true Sample.oracle_empty) table
         Sample.ethereum Sample.both = Ok (NewArray [a])
    /\ account_balance a = account_balance Sample.dai_account
    /\ map (fun o => (op_type o, op_value o, op_extra o))
           (account_operations a)
       = [("REDEEM", 0, [("compoundValue", ExtraBigNumber 2);
                         ("rate", ExtraString "0")]);
          ("SUPPLY", 0, [("compoundValue", ExtraBigNumber 5);
                         ("rate", ExtraString "0")]);
          ("IN", 1000, [])].
Proof.
  eexists _, _. split; [vm_compute; reflexivity|].
  split; [vm_compute; reflexivity|].
  split; [vm_compute; reflexivity|].
  split; reflexivity.
Qed.

Lemma zip_rates_each (E : Env) (t : TokenCurrency) (ops : list Operation)
  (rates : list HistoRate) (op : Operation) (r : HistoRate) :
  fetchHistoricalRates E t (map op_date ops) = Ok rates ->
  In (op, r) (zip ops rates) ->
  In op ops /\ fetchHistoricalRate E t (op_date op) = Ok r.
Proof.
  rewrite fetchHistoricalRates_each.
  revert rates. induction ops as [|op0 ops IH]; intros rates H; simpl.
  - tauto.
  - inversion H as [|? r0 ? rates' Hr0 Hrest]; subst. simpl.
    intros [[= <- <-]|Hin]; [auto|].
    destruct (IH _ Hrest Hin). auto.
Qed.

Lemma remapOperation_type (E : Env) (a : TokenAccount) (op : Operation)
  (r : HistoRate) :
  (fun o => (op_hash o, op_type o)) <$> remapOperation E a op r
  = (fun type => (op_hash op, type)) <$> supply_or_redeem (op_type op).
Proof.
  unfold remapOperation, supply_or_redeem. simpl.
  destruct (decide ("IN" = op_type op)) as [Hin|Hin].
  - rewrite <- Hin. reflexivity.
  - destruct (decide (op_type op = "IN")); [congruence|].
    destruct (decide ("OUT" = op_type op)) as [Hout|Hout].
    + rewrite <- Hout. reflexivity.
    + destruct (decide (op_type op = "OUT")); [congruence | reflexivity].
Qed.

Lemma remapOperation_Some (E : Env) (a : TokenAccount) (op o : Operation)
  (r : HistoRate) :
  remapOperation E a op r = Some o ->
  op_hash o = op_hash op
  /\ op_date o = op_date op
  /\ op_value o = integerValue (times (op_value op) (histo_rate r)).
Proof.
  unfold remapOperation.
  destruct (obj_get (op_type op) cdaiToDaiOpMapping); [|discriminate].
  intros [= <-]. auto.
Qed.

Lemma remapped_types (E : Env) (a : TokenAccount) (ops : list Operation)
  (rates : list HistoRate) :
  length ops = length rates ->
  map (fun o => (op_hash o, op_type o))
      (omap (fun p => remapOperation E a (fst p) (snd p)) (zip ops rates))
  = omap (fun op => (fun type => (op_hash op, type))
                      <$> supply_or_redeem (op_type op)) ops.
Proof.
  revert rates. induction ops as [|op ops IH]; intros [|r rates]; simpl;
    try discriminate; [reflexivity|].
  intros [= Hlen]. specialize (IH _ Hlen).
  pose proof (remapOperation_type E a op r) as Ht.
  destruct (remapOperation E a op r) as [o|];
    destruct (supply_or_redeem (op_type op)) as [type|]; simpl in *;
    try discriminate; [|assumption].
  injection Ht as -> ->. f_equal. exact IH.
Qed.

Section Merged.

Variable E : Env.
Variable compoundPreloadedValue : gmap string Preloaded.
Variable currency : CryptoCurrency.
Variable subAccounts : list TokenAccount.
Variable r : Returned.
Variable m : Obj Compound.
Variable a : TokenAccount.
Variable c : Compound.
Variable ca : TokenAccount.

Hypothesis enabled : disabled E currency = false.
Hypothesis digested :
  digestTokenAccounts E compoundPreloadedValue currency subAccounts = Ok r.
Hypothesis inferred :
  inferSubAccountsCompound E currency subAccounts = Ok m.
Hypothesis a_in : In a subAccounts.
Hypothesis a_merges : merges m a c ca.

(** C3, as amended.  For every merge performed by [digestTokenAccounts], the
    product of an integer amount by a rate is rounded to the nearest integer,
    a tie going away from zero (the default rounding mode of bignumber.js),
    not truncated: the merged balance is [U + round (D * R)] for the balance
    [U] of the account, the balance [D] of the cToken account and the current
    rate [R], and the value of each remapped operation is the value of the
    cToken operation times the historical rate at its date, rounded the same
    way. *)
Theorem merged_amounts_rounded_half_away_from_zero :
  exists a' b newOps,
    In a' (array_of subAccounts r)
    /\ digestTokenAccount E compoundPreloadedValue m a = Ok (Some a')
    /\ account_balance a' = account_balance a + b
    /\ rounds_half_away_from_zero
         (inject_Z (account_balance ca)
          * getCTokenRate E compoundPreloadedValue (ctoken c))%Q b
    /\ account_operations a' = mergeOps E (account_operations a) newOps
    /\ Forall
         (fun o => exists op rate,
              In op (account_operations ca)
              /\ fetchHistoricalRate E (ctoken c) (op_date op) = Ok rate
              /\ op_hash o = op_hash op
              /\ rounds_half_away_from_zero
                   (inject_Z (op_value op) * histo_rate rate)%Q (op_value o))
         newOps.
Proof.
  destruct (digestTokenAccounts_merged E compoundPreloadedValue currency
              subAccounts r m a c ca enabled digested inferred a_in a_merges)
    as (rates & a' & Hrates & Hin & Ha' & Hbal & _ & Hops).
  eexists a', _, _. split; [exact Hin|]. split; [exact Ha'|].
  split; [exact Hbal|]. split; [apply integerValue_rounds|].
  split; [exact Hops|].
  apply Forall_forall. intros o Ho.
  apply list_elem_of_omap in Ho.
  destruct Ho as ([op rate] & Hzip & Hremap). simpl in Hremap.
  rewrite list_elem_of_In in Hzip.
  destruct (zip_rates_each _ _ _ _ _ _ Hrates Hzip) as [Hop Hrate].
  destruct (remapOperation_Some _ _ _ _ _ Hremap) as (Hhash & _ & Hval).
  exists op, rate. split; [exact Hop|]. split; [exact Hrate|].
  split; [exact Hhash|]. rewrite Hval. apply integerValue_rounds.
Qed.

(** C5.  For every pair merged by [digestTokenAccounts] with balance [U] of
    the account, balance [D >= 0] of the cToken account and current rate
    [R >= 0], the balance of the merged account is at least [U]. *)
Theorem merged_balance_ge_underlying :
  0 <= account_balance ca ->
  (0 <= getCTokenRate E compoundPreloadedValue (ctoken c))%Q ->
  exists a',
    In a' (array_of subAccounts r)
    /\ digestTokenAccount E compoundPreloadedValue m a = Ok (Some a')
    /\ account_balance a <= account_balance a'.
Proof.
  intros HD HR.
  destruct (digestTokenAccounts_merged E compoundPreloadedValue currency
              subAccounts r m a c ca enabled digested inferred a_in a_merges)
    as (rates & a' & _ & Hin & Ha' & Hbal & _).
  exists a'. split; [exact Hin|]. split; [exact Ha'|].
  rewrite Hbal.
  assert (0 <= integerValue
                 (times (account_balance ca)
                    (getCTokenRate E compoundPreloadedValue (ctoken c)))).
  { apply integerValue_le_0. unfold times. apply Qmult_le_0_compat; [|exact HR].
    change 0%Q with (inject_Z 0). now rewrite <- Zle_Qle. }
  lia.
Qed.

(** C6.  For every cToken operation processed during a merge, the type goes
    through a closed mapping, IN to SUPPLY and OUT to REDEEM, and an
    operation of any other type is dropped: the remapped operations that are
    merged into the operations of the account are, in order, the images of
    the IN and OUT operations of the cToken account, and nothing else; with a
    [mergeOps] that returns operations of its arguments only, an operation of
    the merged list is an operation that the account had or a remapped
    SUPPLY or REDEEM. *)
Theorem remapped_types_closed :
  exists a' newOps,
    In a' (array_of subAccounts r)
    /\ digestTokenAccount E compoundPreloadedValue m a = Ok (Some a')
    /\ account_operations a' = mergeOps E (account_operations a) newOps
    /\ map (fun o => (op_hash o, op_type o)) newOps
       = omap (fun op => (fun type => (op_hash op, type))
                           <$> supply_or_redeem (op_type op))
              (account_operations ca)
    /\ Forall (fun o => op_type o = "SUPPLY" \/ op_type o = "REDEEM") newOps
    /\ ((forall existing newFetched o,
            In o (mergeOps E existing newFetched) ->
            In o existing \/ In o newFetched) ->
        forall o,
          In o (account_operations a') ->
          In o (account_operations a)
          \/ (In o newOps
              /\ (op_type o = "SUPPLY" \/ op_type o = "REDEEM"))).
Proof.
  destruct (digestTokenAccounts_merged E compoundPreloadedValue currency
              subAccounts r m a c ca enabled digested inferred a_in a_merges)
    as (rates & a' & Hrates & Hin & Ha' & _ & _ & Hops).
  assert (Htypes :
            Forall (fun o => op_type o = "SUPPLY" \/ op_type o = "REDEEM")
              (omap (fun p => remapOperation E a (fst p) (snd p))
                    (zip (account_operations ca) rates))).
  { apply Forall_forall. intros o Ho.
    apply list_elem_of_omap in Ho.
    destruct Ho as ([op rate] & _ & Hremap). simpl in Hremap.
    pose proof (remapOperation_type E a op rate) as Ht.
    rewrite Hremap in Ht. unfold supply_or_redeem in Ht. simpl in Ht.
    destruct (decide (op_type op = "IN"));
      [injection Ht as _ ->; now left|].
    destruct (decide (op_type op = "OUT"));
      [injection Ht as _ ->; now right | discriminate]. }
  eexists a', _. split; [exact Hin|]. split; [exact Ha'|].
  split; [exact Hops|]. split; [|split; [exact Htypes|]].
  - apply remapped_types. apply Array_map_length in Hrates.
    now rewrite Hrates, length_map.
  - intros Hmerge o Ho. rewrite Hops in Ho.
    destruct (Hmerge _ _ _ Ho) as [Hold|Hnew]; [now left|].
    right. split; [exact Hnew|].
    rewrite Forall_forall in Htypes. apply Htypes.
    now apply list_elem_of_In.
Qed.

(** C8.  For every merged account produced by [digestTokenAccounts], the
    spendable balance is the balance that the account had before the merge:
    the converted amount of the cToken account is not added to it. *)
Theorem merged_spendableBalance_is_balance :
  exists a',
    In a' (array_of subAccounts r)
    /\ digestTokenAccount E compoundPreloadedValue m a = Ok (Some a')
    /\ account_spendableBalance a' = account_balance a.
Proof.
  destruct (digestTokenAccounts_merged E compoundPreloadedValue currency
              subAccounts r m a c ca enabled digested inferred a_in a_merges)
    as (rates & a' & _ & Hin & Ha' & _ & Hsp & _).
  exists a'. auto.
Qed.

End Merged.

Ltac sample_merge thm :=
  apply (thm Sample.up Sample.preloaded Sample.ethereum Sample.both
           (NewArray Sample.digested) Sample.inferred Sample.dai_account
           Sample.dai_entry Sample.cdai_account);
  [ vm_compute; reflexivity
  | vm_compute; reflexivity
  | vm_compute; reflexivity
  | left; reflexivity
  | repeat split
  | .. ].

(** C3 as first stated fails: DAI balance 1000, cDAI balance 3 and rate 0.5
    merge into 1002, where truncation gives 1001; the cDAI operation of value
    5 becomes a SUPPLY of value 3, where truncation gives 2. *)
Lemma merged_amounts_not_truncated :
  exists a' o rate,
    digestTokenAccounts Sample.up Sample.preloaded Sample.ethereum Sample.both
    = Ok (NewArray [a'])
    /\ account_balance a' = 1002
    /\ account_balance a'
       <> account_balance Sample.dai_account
          + truncated_toward_zero
              (inject_Z (account_balance Sample.cdai_account)
               * getCTokenRate Sample.up Sample.preloaded Sample.cdai)%Q
    /\ In o (account_operations a')
    /\ op_hash o = "0xbb" /\ op_type o = "SUPPLY" /\ op_value o = 3
    /\ fetchHistoricalRate Sample.up Sample.cdai 1595000000000 = Ok rate
    /\ (histo_rate rate == 1 # 2)%Q
    /\ op_value o <> truncated_toward_zero (inject_Z 5 * histo_rate rate)%Q.
Proof.
  eexists _, _, _. split; [vm_compute; reflexivity|].
  split; [reflexivity|]. split; [vm_compute; discriminate|].
  split; [right; left; reflexivity|].
  do 3 (split; [reflexivity|]).
  split; [vm_compute; reflexivity|].
  split; [reflexivity | vm_compute; discriminate].
Qed.

Lemma merged_amounts_rounded_half_away_from_zero_witness :
  exists a' b newOps,
    In a' Sample.digested
    /\ digestTokenAccount Sample.up Sample.preloaded Sample.inferred
         Sample.dai_account = Ok (Some a')
    /\ account_balance a' = account_balance Sample.dai_account + b
    /\ rounds_half_away_from_zero
         (inject_Z (account_balance Sample.cdai_account)
          * getCTokenRate Sample.up Sample.preloaded
              (ctoken Sample.dai_entry))%Q b
    /\ account_operations a'
       = mergeOps Sample.up (account_operations Sample.dai_account) newOps
    /\ Forall
         (fun o => exists op rate,
              In op (account_operations Sample.cdai_account)
              /\ fetchHistoricalRate Sample.up (ctoken Sample.dai_entry)
                   (op_date op) = Ok rate
              /\ op_hash o = op_hash op
              /\ rounds_half_away_from_zero
                   (inject_Z (op_value op) * histo_rate rate)%Q (op_value o))
         newOps.
Proof. sample_merge merged_amounts_rounded_half_away_from_zero. Defined.

Lemma merged_balance_ge_underlying_witness :
  exists a',
    In a' Sample.digested
    /\ digestTokenAccount Sample.up Sample.preloaded Sample.inferred
         Sample.dai_account = Ok (Some a')
    /\ account_balance Sample.dai_account <= account_balance a'.
Proof.
  sample_merge merged_balance_ge_underlying; vm_compute; discriminate.
Defined.

Lemma sample_merge_ops_In (existing newFetched : list Operation)
  (o : Operation) :
  In o (Sample.merge_ops existing newFetched) ->
  In o existing \/ In o newFetched.
Proof.
  assert (Hins : forall x l, In o (Sample.insert_by_date x l) ->
                             o = x \/ In o l).
  { intros x l. induction l as [|y l IH]; simpl.
    - intros [<-|[]]. now left.
    - destruct (op_date y <? op_date x); simpl.
      + intros [<-|H]; [now left | now right].
      + intros [<-|H]; [right; now left|].
        destruct (IH H); [now left | right; now right]. }
  unfold Sample.merge_ops. revert existing.
  induction newFetched as [|x l IH]; intros existing; simpl; [now left|].
  intros H. apply IH in H. destruct H as [H|H]; [|right; now right].
  destruct (existsb _ existing); [now left|].
  destruct (Hins _ _ H) as [->|H']; [right; now left | now left].
Qed.

Lemma remapped_types_closed_witness :
  exists a' newOps,
    In a' Sample.digested
    /\ digestTokenAccount Sample.up Sample.preloaded Sample.inferred
         Sample.dai_account = Ok (Some a')
    /\ account_operations a'
       = mergeOps Sample.up (account_operations Sample.dai_account) newOps
    /\ map (fun o => (op_hash o, op_type o)) newOps
       = [("0xbb", "SUPPLY"); ("0xcc", "REDEEM")]
    /\ Forall (fun o => op_type o = "SUPPLY" \/ op_type o = "REDEEM") newOps
    /\ (forall o,
          In o (account_operations a') ->
          In o (account_operations Sample.dai_account)
          \/ (In o newOps
              /\ (op_type o = "SUPPLY" \/ op_type o = "REDEEM"))).
Proof.
  destruct (remapped_types_closed Sample.up Sample.preloaded Sample.ethereum
              Sample.both (NewArray Sample.digested) Sample.inferred
              Sample.dai_account Sample.dai_entry Sample.cdai_account)
    as (a' & newOps & Hin & Ha' & Hops & Hmap & Htypes & Hmerged).
  - vm_compute. reflexivity.
  - vm_compute. reflexivity.
  - vm_compute. reflexivity.
  - left. reflexivity.
  - repeat split.
  - exists a', newOps. repeat (split; [assumption|]).
    apply Hmerged. exact sample_merge_ops_In.
Defined.

Lemma merged_spendableBalance_is_balance_witness :
  exists a',
    In a' Sample.digested
    /\ digestTokenAccount Sample.up Sample.preloaded Sample.inferred
         Sample.dai_account = Ok (Some a')
    /\ account_spendableBalance a' = account_balance Sample.dai_account.
Proof. sample_merge merged_spendableBalance_is_balance. Defined.

(** ** The rate table *)

(** C9.  For every cToken and every content of the table, [getCTokenRate]
    gives the rate stored under the id of the token, or 0 when the table has
    no entry for it, and [getCTokenSupplyAPY] gives the stored APY string, or
    the empty string when there is no entry; both are total. *)
Theorem getCTokenRate_getCTokenSupplyAPY_lookup (E : Env)
  (compoundPreloadedValue : gmap string Preloaded) (ctoken : TokenCurrency) :
  (forall value,
      compoundPreloadedValue !! token_id ctoken = Some value ->
      getCTokenRate E compoundPreloadedValue ctoken
      = BigNumber_of_string E (rate value)
      /\ getCTokenSupplyAPY compoundPreloadedValue ctoken = supplyAPY value)
  /\ (compoundPreloadedValue !! token_id ctoken = None ->
      getCTokenRate E compoundPreloadedValue ctoken = 0%Q
      /\ getCTokenSupplyAPY compoundPreloadedValue ctoken = "").
Proof.
  unfold getCTokenRate, getCTokenSupplyAPY.
  split; [intros value Hv | intros Hv]; rewrite Hv; split; reflexivity.
Qed.

Lemma getCTokenRate_getCTokenSupplyAPY_lookup_witness :
  (getCTokenRate Sample.up Sample.preloaded Sample.cdai
   = BigNumber_of_string Sample.up "0.5"
   /\ getCTokenSupplyAPY Sample.preloaded Sample.cdai = "2.35%")
  /\ (getCTokenRate Sample.up (hydrate ∅) Sample.cdai = 0%Q
      /\ getCTokenSupplyAPY (hydrate ∅) Sample.cdai = "").
Proof.
  split.
  - apply (proj1 (getCTokenRate_getCTokenSupplyAPY_lookup
                    Sample.up Sample.preloaded Sample.cdai)
                 {| rate := "0.5"; supplyAPY := "2.35%" |}).
    vm_compute. reflexivity.
  - apply (proj2 (getCTokenRate_getCTokenSupplyAPY_lookup
                    Sample.up (hydrate ∅) Sample.cdai)).
    vm_compute. reflexivity.
Defined.

(** ** Other currencies, and the COMPOUND flag *)

Lemma disabled_iff (E : Env) (currency : CryptoCurrency) :
  disabled E currency = true
  <-> currency_id currency <> "ethereum" \/ getEnv_COMPOUND E = false.
Proof.
  unfold disabled. rewrite orb_true_iff, !negb_true_iff.
  rewrite bool_decide_eq_false. reflexivity.
Qed.

(** C10.  For every account list, when the id of the currency is not
    "ethereum" or the COMPOUND flag is off, [prepareTokenAccounts] and
    [digestTokenAccounts] both return the array they were given, the same
    reference: nothing is inferred, added, merged or dropped. *)
Theorem disabled_returns_same_array (E : Env)
  (compoundPreloadedValue : gmap string Preloaded)
  (currency : CryptoCurrency) (subAccounts : list TokenAccount) :
  currency_id currency <> "ethereum" \/ getEnv_COMPOUND E = false ->
  prepareTokenAccounts E currency subAccounts = Ok SameArray
  /\ digestTokenAccounts E compoundPreloadedValue currency subAccounts
     = Ok SameArray.
Proof.
  intros H. apply disabled_iff in H.
  unfold prepareTokenAccounts, digestTokenAccounts. rewrite H. auto.
Qed.

Lemma disabled_returns_same_array_witness :
  (prepareTokenAccounts Sample.up Sample.bitcoin Sample.both = Ok SameArray
   /\ digestTokenAccounts Sample.up Sample.preloaded Sample.bitcoin
        Sample.both = Ok SameArray)
  /\ (prepareTokenAccounts (Sample.env false Sample.oracle_up)
        Sample.ethereum Sample.both = Ok SameArray
      /\ digestTokenAccounts (Sample.env false Sample.oracle_up)
           Sample.preloaded Sample.ethereum Sample.both = Ok SameArray).
Proof.
  split; apply disabled_returns_same_array.
  - left. vm_compute. discriminate.
  - right. vm_compute. reflexivity.
Defined.

(** ** Placeholders *)

Lemma obj_set_In {V} (k k' : string) (v e : V) (o : Obj V) :
  In (k', e) (obj_set k v o) -> (k' = k /\ e = v) \/ In (k', e) o.
Proof.
  induction o as [|[k0 v0] o IH]; simpl.
  - intros [[= <- <-]|[]]. now left.
  - destruct (decide (k0 = k)) as [->|Hne]; simpl.
    + intros [[= <- <-]|Hin]; [now left | right; now right].
    + intros [Heq|Hin]; [right; now left|].
      destruct (IH Hin); [now left | right; now right].
Qed.

Lemma inferLoop_In (E : Env) (subAccounts : list TokenAccount)
  (tokens : list TokenCurrency) (o m : Obj Compound) (k : string)
  (e : Compound) :
  inferLoop E subAccounts tokens o = Ok m ->
  In (k, e) m ->
  In (k, e) o
  \/ exists c tok, In c tokens /\ pairs subAccounts c k
       /\ e = entry_of subAccounts c k tok.
Proof.
  revert o. induction tokens as [|c tokens IH]; intros o; simpl.
  - intros [= ->] H. now left.
  - intros Hloop Hin. apply bind_Ok in Hloop.
    destruct Hloop as (o' & Hstep & Hloop).
    destruct (IH _ Hloop Hin) as [Hold|(c' & tok & Hc' & Hp & ->)].
    + destruct (inferStep_cases E subAccounts o c)
        as [[Hs Hno]|(k' & Hk' & Hs)]; rewrite Hs in Hstep.
      * injection Hstep as <-. now left.
      * apply bind_Ok in Hstep. destruct Hstep as (tok & Htok & [= <-]).
        apply obj_set_In in Hold. destruct Hold as [[-> ->]|Hold].
        -- right. exists c, tok. split; [now left | auto].
        -- now left.
    + right. exists c', tok. split; [now right | auto].
Qed.

Lemma omap_all_None {A B} (f : A -> option B) (l : list A) :
  (forall x, In x l -> f x = None) -> omap f l = [].
Proof.
  induction l as [|x l IH]; simpl; intros H; [reflexivity|].
  rewrite (H x (or_introl eq_refl)). apply IH. intros; apply H; now right.
Qed.

(** C7.  For every account list in which no pair needs a placeholder, that
    is, whenever an account of the wrapped token of a cToken of the registry
    comes with an account of that cToken, [prepareTokenAccounts] returns the
    array it was given (the same reference), not a copy.  The registry
    resolves the wrapped token of each of its cTokens. *)
Theorem prepareTokenAccounts_same_array_when_paired (E : Env)
  (currency : CryptoCurrency) (subAccounts : list TokenAccount) :
  (forall c k,
      In c (listTokensForCryptoCurrency E currency) ->
      truthy (token_compoundFor c) = Some k ->
      is_Some (getTokenById E k)) ->
  (forall c k,
      In c (listTokensForCryptoCurrency E currency) ->
      truthy (token_compoundFor c) = Some k ->
      is_Some (find_tokenAccount k subAccounts) ->
      is_Some (find_ctokenAccount c subAccounts)) ->
  prepareTokenAccounts E currency subAccounts = Ok SameArray.
Proof.
  intros Hreg Hpaired. unfold prepareTokenAccounts.
  destruct (disabled E currency); [reflexivity|].
  unfold inferSubAccountsCompound.
  destruct (proj2 (inferLoop_Ok_iff E subAccounts
                     (listTokensForCryptoCurrency E currency) []))
    as [m Hm].
  { intros c k Hin [Hk _]. eauto. }
  rewrite Hm. simpl. rewrite omap_all_None; [reflexivity|].
  intros e He. apply obj_values_get in He. destruct He as [k He].
  destruct (inferLoop_In _ _ _ _ _ _ _ Hm He)
    as [[]|(c & tok & Hin & [Hk _] & ->)].
  unfold implicitCTokenAccount, entry_of. simpl.
  destruct (find_tokenAccount k subAccounts) as [ta|] eqn:Hta;
    [|reflexivity].
  destruct (Hpaired c k Hin Hk) as [ca ->]; [eauto | reflexivity].
Qed.

Lemma prepareTokenAccounts_same_array_when_paired_witness :
  prepareTokenAccounts Sample.up Sample.ethereum Sample.both = Ok SameArray.
Proof.
  apply prepareTokenAccounts_same_array_when_paired.
  - intros c k [<-|[<-|[]]]; vm_compute; intros [= <-]. eauto.
  - intros c k [<-|[<-|[]]]; vm_compute; intros [= <-]. eauto.
Defined.

(** ** The oracle *)

Section Oracle.

Variable E : Env.

Lemma fetchHistoricalRate_absent (t : TokenCurrency) (d : Z)
  (data : Response) :
  fetch E (Math_round_div1000 d) [token_contractAddress t] = Ok data ->
  find_cToken data t = None ->
  fetchHistoricalRate E t d = Ok {| histo_token := t; histo_rate := 0 |}.
Proof.
  intros Hdata Habsent. unfold fetchHistoricalRate.
  rewrite Hdata. simpl. now rewrite Habsent.
Qed.

Lemma fetchHistoricalRates_Err (t : TokenCurrency) (dates : list Z) (d : Z) :
  In d dates ->
  is_Err (fetch E (Math_round_div1000 d) [token_contractAddress t]) ->
  is_Err (fetchHistoricalRates E t dates).
Proof.
  intros Hin Herr. unfold fetchHistoricalRates, promiseAllBatched.
  apply (Array_map_Err _ _ d Hin).
  unfold fetchHistoricalRate. now apply bind_Err.
Qed.

Lemma fetchCurrentRates_absent (tokens : list TokenCurrency)
  (t : TokenCurrency) (data : Response) (rs : list CurrentRate) :
  fetch E 0 [String.concat "," (map token_contractAddress tokens)] = Ok data ->
  fetchCurrentRates E tokens = Ok rs ->
  In t tokens ->
  find_cToken data t = None ->
  In {| current_token := t; current_rate := 0; current_supplyAPY := "" |} rs.
Proof.
  intros Hdata Hrs Hin Habsent.
  assert (Hall : Forall2 (fun x b => currentRate_of E data x = Ok b)
                   tokens rs).
  { apply Array_map_Forall2. unfold fetchCurrentRates in Hrs.
    destruct tokens; [destruct Hin|]. now rewrite Hdata in Hrs. }
  clear Hdata Hrs.
  induction Hall as [|t' r' ts rs' Hr Hrest IH]; [destruct Hin|].
  destruct Hin as [->|Hin]; [|right; auto].
  left. unfold currentRate_of in Hr. rewrite Habsent in Hr. congruence.
Qed.

Lemma fetchCurrentRates_Err (tokens : list TokenCurrency) :
  tokens <> [] ->
  is_Err (fetch E 0 [String.concat "," (map token_contractAddress tokens)]) ->
  is_Err (fetchCurrentRates E tokens).
Proof.
  intros Hne Herr. unfold fetchCurrentRates.
  destruct tokens; [congruence|]. now apply bind_Err.
Qed.

(** C2, as amended.  When the response of the oracle has no entry for the
    requested token, the rate is 0 (and the APY string is empty), for a
    current rate as for a historical one.  A call to the oracle that fails is
    not caught: [fetchCurrentRates] and [fetchHistoricalRates] fail, and
    [digestTokenAccounts] fails when the call is for the date of an operation
    of a cToken account that it merges. *)
Theorem oracle_failure_is_not_caught
  (compoundPreloadedValue : gmap string Preloaded)
  (currency : CryptoCurrency) (subAccounts : list TokenAccount)
  (tokens : list TokenCurrency) (t : TokenCurrency) (dates : list Z) :
  (forall d data,
      fetch E (Math_round_div1000 d) [token_contractAddress t] = Ok data ->
      find_cToken data t = None ->
      fetchHistoricalRate E t d = Ok {| histo_token := t; histo_rate := 0 |})
  /\ (forall data rs,
         fetch E 0 [String.concat "," (map token_contractAddress tokens)]
         = Ok data ->
         fetchCurrentRates E tokens = Ok rs ->
         In t tokens ->
         find_cToken data t = None ->
         In {| current_token := t; current_rate := 0;
               current_supplyAPY := "" |} rs)
  /\ (forall d,
         In d dates ->
         is_Err (fetch E (Math_round_div1000 d) [token_contractAddress t]) ->
         is_Err (fetchHistoricalRates E t dates))
  /\ (tokens <> [] ->
      is_Err (fetch E 0
                [String.concat "," (map token_contractAddress tokens)]) ->
      is_Err (fetchCurrentRates E tokens))
  /\ (forall m a c ca op,
         disabled E currency = false ->
         inferSubAccountsCompound E currency subAccounts = Ok m ->
         In a subAccounts ->
         merges m a c ca ->
         In op (account_operations ca) ->
         is_Err (fetch E (Math_round_div1000 (op_date op))
                   [token_contractAddress (ctoken c)]) ->
         is_Err (digestTokenAccounts E compoundPreloadedValue currency
                   subAccounts)).
Proof.
  split; [intros; eapply fetchHistoricalRate_absent; eassumption|].
  split; [intros; eapply fetchCurrentRates_absent; eassumption|].
  split; [intros; eapply fetchHistoricalRates_Err; eassumption|].
  split; [apply fetchCurrentRates_Err|].
  intros m a c ca op Hon Hm Hin Hmerges Hop Herr.
  eapply digestTokenAccounts_Err; try eassumption.
  eapply digestTokenAccount_merges_Err; [eassumption|].
  eapply fetchHistoricalRates_Err; [|eassumption].
  now apply in_map.
Qed.

End Oracle.

(** C2 as first stated fails: with the oracle down, both fetches fail and
    [digestTokenAccounts] hands the failure to its caller. *)
Lemma oracle_failure_reaches_caller :
  fetchHistoricalRates Sample.down Sample.cdai [1595000000000]
  = Err (NetworkError "ECONNREFUSED")
  /\ fetchCurrentRates Sample.down [Sample.cdai]
     = Err (NetworkError "ECONNREFUSED")
  /\ digestTokenAccounts Sample.down Sample.preloaded Sample.ethereum
       Sample.both
     = Err (NetworkError "ECONNREFUSED").
Proof. repeat split. Qed.

Lemma oracle_failure_is_not_caught_witness :
  (fetchHistoricalRate (Sample.env true Sample.oracle_empty) Sample.cdai
     1595000000000
   = Ok {| histo_token := Sample.cdai; histo_rate := 0 |})
  /\ In {| current_token := Sample.cdai; current_rate := 0;
           current_supplyAPY := "" |}
        [ {| current_token := Sample.cdai; current_rate := 0;
             current_supplyAPY := "" |} ]
  /\ is_Err (fetchHistoricalRates Sample.down Sample.cdai [1595000000000])
  /\ is_Err (fetchCurrentRates Sample.down [Sample.cdai])
  /\ is_Err (digestTokenAccounts Sample.down Sample.preloaded
               Sample.ethereum Sample.both).
Proof.
  pose proof (oracle_failure_is_not_caught
                (Sample.env true Sample.oracle_empty) Sample.preloaded
                Sample.ethereum Sample.both [Sample.cdai] Sample.cdai
                [1595000000000]) as (Habsent & Hcurrent & _).
  pose proof (oracle_failure_is_not_caught
                Sample.down Sample.preloaded
                Sample.ethereum Sample.both [Sample.cdai] Sample.cdai
                [1595000000000]) as (_ & _ & Hhisto & Hcur & Hdigest).
  split.
  { apply (Habsent 1595000000000 {| data_cToken := [] |});
      vm_compute; reflexivity. }
  split.
  { apply (Hcurrent {| data_cToken := [] |});
      [vm_compute; reflexivity | vm_compute; reflexivity
      | left; reflexivity | vm_compute; reflexivity]. }
  split.
  { apply (Hhisto 1595000000000); [left; reflexivity|].
    eexists. vm_compute. reflexivity. }
  split.
  { apply Hcur; [discriminate|]. eexists. vm_compute. reflexivity. }
  apply (Hdigest Sample.inferred Sample.dai_account Sample.dai_entry
           Sample.cdai_account
           (Sample.operation "js:2:ethereum:0xAB:+cdai" "0xbb" "IN"
              1595000000000 5)).
  - vm_compute. reflexivity.
  - vm_compute. reflexivity.
  - left. reflexivity.
  - repeat split.
  - left. reflexivity.
  - eexists. vm_compute. reflexivity.
Defined.

(** ** What is left of the cToken accounts *)

Lemma find_is_Some {A} (f : A -> bool) (l : list A) :
  is_Some (List.find f l) <-> exists x, In x l /\ f x = true.
Proof.
  split.
  - intros [x Hx]. apply find_some in Hx. eauto.
  - intros (x & Hin & Hfx).
    destruct (List.find f l) as [y|] eqn:Hfind; [eauto|].
    rewrite (find_none _ _ Hfind x Hin) in Hfx. discriminate.
Qed.

Lemma find_tokenAccount_is_Some (k : string) (l : list TokenAccount) :
  is_Some (find_tokenAccount k l)
  <-> exists a, In a l /\ token_id (account_token a) = k.
Proof.
  unfold find_tokenAccount. rewrite find_is_Some.
  split; intros (a & Hin & Ha); exists a; split; auto.
  - now apply bool_decide_eq_true in Ha.
  - now apply bool_decide_eq_true.
Qed.

Lemma find_ctokenAccount_is_Some (c : TokenCurrency) (l : list TokenAccount) :
  is_Some (find_ctokenAccount c l)
  <-> exists a, In a l /\ account_token a = c.
Proof.
  unfold find_ctokenAccount. rewrite find_is_Some.
  split; intros (a & Hin & Ha); exists a; split; auto.
  - now apply bool_decide_eq_true in Ha.
  - now apply bool_decide_eq_true.
Qed.

Section Digested.

Variable E : Env.
Variable compoundPreloadedValue : gmap string Preloaded.
Variable currency : CryptoCurrency.
Variable subAccounts : list TokenAccount.
Variable r : Returned.
Variable m : Obj Compound.

Hypothesis enabled : disabled E currency = false.
Hypothesis digested :
  digestTokenAccounts E compoundPreloadedValue currency subAccounts = Ok r.
Hypothesis inferred :
  inferSubAccountsCompound E currency subAccounts = Ok m.

Lemma digested_from (a' : TokenAccount) :
  In a' (array_of subAccounts r) ->
  exists a, In a subAccounts
    /\ digestTokenAccount E compoundPreloadedValue m a = Ok (Some a').
Proof.
  apply (digestTokenAccounts_In E compoundPreloadedValue currency
           subAccounts r m a' enabled digested inferred).
Qed.

(** No account of a cToken of the registry is left in the result, whether
    or not the wrapped token has an account. *)
Lemma digested_without_ctoken (c : TokenCurrency) (k : string)
  (a' : TokenAccount) :
  In c (listTokensForCryptoCurrency E currency) ->
  truthy (token_compoundFor c) = Some k ->
  In a' (array_of subAccounts r) ->
  account_token a' <> c.
Proof.
  intros Hc Hk Ha' Heq.
  destruct (digested_from a' Ha') as (a & Ha & Hdigest).
  destruct (digestTokenAccount_Some _ _ _ _ _ Hdigest) as (Htok & _ & Hd & _).
  rewrite Heq in Htok. rewrite <- Htok in Hd.
  destruct (Hd k Hk) as [Hnone _].
  assert (Hp : pairs subAccounts c k).
  { split; [exact Hk|]. right. apply find_ctokenAccount_is_Some. eauto. }
  destruct (inferLoop_sets E subAccounts _ [] m c k inferred Hc Hp)
    as [e He].
  congruence.
Qed.

Lemma digested_find_ctokenAccount (c : TokenCurrency) (k : string) :
  In c (listTokensForCryptoCurrency E currency) ->
  truthy (token_compoundFor c) = Some k ->
  find_ctokenAccount c (array_of subAccounts r) = None.
Proof.
  intros Hc Hk.
  destruct (find_ctokenAccount c (array_of subAccounts r)) as [a'|]
    eqn:Hfind; [|reflexivity].
  exfalso.
  destruct (proj1 (find_ctokenAccount_is_Some c (array_of subAccounts r)))
    as (a & Ha & Htok); [rewrite Hfind; eauto|].
  exact (digested_without_ctoken c k a Hc Hk Ha Htok).
Qed.

(** A cToken that pairs in the result paired in the input. *)
Lemma digested_pairs (c : TokenCurrency) (k : string) :
  In c (listTokensForCryptoCurrency E currency) ->
  pairs (array_of subAccounts r) c k ->
  pairs subAccounts c k.
Proof.
  intros Hc [Hk Hfound]. split; [exact Hk|]. left.
  destruct Hfound as [Hta|Hca].
  - apply find_tokenAccount_is_Some in Hta. destruct Hta as (a' & Ha' & Hid).
    destruct (digested_from a' Ha') as (a & Ha & Hdigest).
    destruct (digestTokenAccount_Some _ _ _ _ _ Hdigest) as (Htok & _).
    apply find_tokenAccount_is_Some. exists a. split; [exact Ha|].
    now rewrite <- Htok.
  - rewrite (digested_find_ctokenAccount c k Hc Hk) in Hca.
    now destruct Hca.
Qed.

Lemma digested_infers :
  exists m',
    inferSubAccountsCompound E currency (array_of subAccounts r) = Ok m'.
Proof.
  apply inferLoop_Ok_iff. intros c k Hc Hp.
  apply digested_pairs in Hp; [|exact Hc].
  refine (proj1 (inferLoop_Ok_iff E subAccounts _ []) _ c k Hc Hp).
  exists m. exact inferred.
Qed.

(** In the result every account goes through a second digestion as it is. *)
Lemma digested_through (m' : Obj Compound) (a' : TokenAccount) :
  inferSubAccountsCompound E currency (array_of subAccounts r) = Ok m' ->
  In a' (array_of subAccounts r) ->
  digestTokenAccount E compoundPreloadedValue m' a' = Ok (Some a').
Proof.
  intros Hm' Ha'. apply digestTokenAccount_through.
  - intros k Hk.
    destruct (obj_get k m') as [e|] eqn:Hget; [|reflexivity]. exfalso.
    destruct (inferLoop_get E (array_of subAccounts r) _ [] m' k e Hm' Hget)
      as [[=]|(c & tok & Hc & Hp & _)].
    apply digested_pairs in Hp; [|exact Hc].
    destruct (inferLoop_sets E subAccounts _ [] m c k inferred Hc Hp)
      as [e' He'].
    destruct (digested_from a' Ha') as (a & Ha & Hdigest).
    destruct (digestTokenAccount_Some _ _ _ _ _ Hdigest)
      as (Htok & _ & Hd & _).
    rewrite <- Htok in Hd. destruct (Hd k Hk) as [Hnone _]. congruence.
  - intros e Hget.
    destruct (inferLoop_get E (array_of subAccounts r) _ [] m' _ e Hm' Hget)
      as [[=]|(c & tok & Hc & [Hk _] & _ & ->)].
    simpl. exact (digested_find_ctokenAccount c _ Hc Hk).
Qed.

Lemma digested_again :
  exists r',
    digestTokenAccounts E compoundPreloadedValue currency
      (array_of subAccounts r) = Ok r'
    /\ array_of (array_of subAccounts r) r' = array_of subAccounts r.
Proof.
  destruct digested_infers as [m' Hm'].
  unfold digestTokenAccounts. rewrite enabled, Hm'. simpl.
  destruct m' as [|p m']; [now exists SameArray|].
  assert (Hall : Array_map
                   (digestTokenAccount E compoundPreloadedValue (p :: m'))
                   (array_of subAccounts r)
                 = Ok (map Some (array_of subAccounts r))).
  { apply Array_map_Forall2.
    assert (Hout : forall a', In a' (array_of subAccounts r) ->
              digestTokenAccount E compoundPreloadedValue (p :: m') a'
              = Ok (Some a'))
      by (intros; now apply digested_through).
    clear Hm'. revert Hout. generalize (array_of subAccounts r). intros l.
    induction l as [|a' l IH]; intros Hout; simpl; constructor.
    - apply Hout. now left.
    - apply IH. intros; apply Hout; now right. }
  unfold promiseAllBatched. rewrite Hall. simpl.
  eexists. split; [reflexivity|]. simpl.
  generalize (array_of subAccounts r). intros l.
  induction l as [|a' l IH]; simpl; [reflexivity | now f_equal].
Qed.

End Digested.

(** C4.  [digestTokenAccounts] is idempotent: applied to its own result, with
    the same oracle, registry and rate table, it returns, and returns the
    accounts of the first result, with no operation added a second time and
    no balance counted twice. *)
Theorem digestTokenAccounts_idempotent (E : Env)
  (compoundPreloadedValue : gmap string Preloaded)
  (currency : CryptoCurrency) (subAccounts : list TokenAccount)
  (r : Returned) :
  digestTokenAccounts E compoundPreloadedValue currency subAccounts = Ok r ->
  exists r',
    digestTokenAccounts E compoundPreloadedValue currency
      (array_of subAccounts r) = Ok r'
    /\ array_of (array_of subAccounts r) r' = array_of subAccounts r.
Proof.
  intros Hd.
  destruct (disabled E currency) eqn:Hon.
  - exists SameArray. unfold digestTokenAccounts in *. rewrite Hon in *.
    now injection Hd as <-.
  - destruct (digestTokenAccounts_open _ _ _ _ _ Hon Hd) as (m & Hm & _).
    exact (digested_again E compoundPreloadedValue currency subAccounts r m
             Hon Hd Hm).
Qed.

Lemma digestTokenAccounts_idempotent_witness :
  exists r',
    digestTokenAccounts Sample.up Sample.preloaded Sample.ethereum
      Sample.digested = Ok r'
    /\ array_of Sample.digested r' = Sample.digested.
Proof.
  apply (digestTokenAccounts_idempotent Sample.up Sample.preloaded
           Sample.ethereum Sample.both (NewArray Sample.digested)).
  vm_compute. reflexivity.
Defined.

(** C1 fails on the code.  A cDAI account with no DAI account beside it is
    dropped, where the specification, like the comment in the callback ("if the
    related ERC20 account would not exist, we would allow its display"),
    has it go through: the entry of the wrapped token is there as soon as the
    cToken account is, and the callback tests the entry, not its
    [tokenAccount]. *)
Theorem ctoken_account_alone_is_dropped :
  find_tokenAccount (token_id Sample.dai) [Sample.cdai_account] = None
  /\ inferSubAccountsCompound Sample.up Sample.ethereum [Sample.cdai_account]
     = Ok [(token_id Sample.dai,
            {| tokenAccount := None; token := Sample.dai;
               ctoken := Sample.cdai;
               ctokenAccount := Some Sample.cdai_account |})]
  /\ digestTokenAccounts Sample.up Sample.preloaded Sample.ethereum
       [Sample.cdai_account]
     = Ok (NewArray []).
Proof. repeat split. Qed.

(** ** When [digestTokenAccounts] returns *)

Lemma truthy_Some (s : option string) (k : string) :
  truthy s = Some k -> s = Some k.
Proof.
  destruct s as [s'|]; simpl; [|discriminate].
  destruct (decide (s' = "")); [discriminate | congruence].
Qed.

Section Returns.

Variable E : Env.
Variable compoundPreloadedValue : gmap string Preloaded.
Variable currency : CryptoCurrency.
Variable subAccounts : list TokenAccount.

Hypothesis oracle_answers : forall req, is_Ok (network E req).
Hypothesis registry_resolves :
  forall c k,
    In c (listTokensForCryptoCurrency E currency) ->
    truthy (token_compoundFor c) = Some k ->
    is_Some (getTokenById E k).

Lemma fetchHistoricalRates_returns (c : TokenCurrency) (k : string)
  (dates : list Z) :
  In c (listTokensForCryptoCurrency E currency) ->
  truthy (token_compoundFor c) = Some k ->
  is_Ok (fetchHistoricalRates E c dates).
Proof.
  intros Hc Hk. apply Array_map_all_Ok. intros d _.
  unfold fetchHistoricalRate, fetch.
  destruct (oracle_answers
              {| block_timestamp := Math_round_div1000 d;
                 addresses := [token_contractAddress c] |}) as [data ->].
  simpl. destruct (find_cToken data c) as [cToken|]; [|eexists; reflexivity].
  unfold rate_of_cToken, getTokenById_or_throw.
  rewrite (truthy_Some _ _ Hk). simpl.
  destruct (registry_resolves c k Hc Hk) as [otoken ->]. simpl.
  eexists; reflexivity.
Qed.

(** With an oracle that answers and a registry that resolves the wrapped
    token of its cTokens, [digestTokenAccounts] returns. *)
Lemma digestTokenAccounts_returns :
  is_Ok (digestTokenAccounts E compoundPreloadedValue currency subAccounts).
Proof.
  unfold digestTokenAccounts.
  destruct (disabled E currency); [eexists; reflexivity|].
  destruct (proj2 (inferLoop_Ok_iff E subAccounts
                     (listTokensForCryptoCurrency E currency) []))
    as [m Hm].
  { intros c k Hc [Hk _]. eauto. }
  unfold inferSubAccountsCompound. rewrite Hm. simpl.
  destruct m as [|p m']; [eexists; reflexivity|].
  set (m := p :: m') in *.
  destruct (Array_map_all_Ok
              (digestTokenAccount E compoundPreloadedValue m) subAccounts)
    as [all Hall].
  - intros a _. unfold digestTokenAccount.
    destruct (truthy (token_compoundFor (account_token a))) as [k|].
    { destruct (obj_get k m); eexists; reflexivity. }
    destruct (obj_get (token_id (account_token a)) m) as [e|] eqn:Hget;
      [|eexists; reflexivity].
    destruct (ctokenAccount e) as [ca|]; [|eexists; reflexivity].
    destruct (inferLoop_get E subAccounts _ [] m _ e Hm Hget)
      as [[=]|(c & tok & Hc & [Hk _] & _ & ->)].
    simpl.
    destruct (fetchHistoricalRates_returns c _
                (map op_date (account_operations ca)) Hc Hk)
      as [rates Hrates].
    rewrite Hrates. simpl. rewrite remapOperations_zip.
    + eexists; reflexivity.
    + apply Array_map_length in Hrates. now rewrite Hrates, length_map.
  - unfold promiseAllBatched. rewrite Hall. eexists; reflexivity.
Qed.

End Returns.

(** The id of a remapped operation is made of the id of the account it goes
    to, the hash of the operation it comes from and its new type. *)
Lemma remapOperation_id (E : Env) (a : TokenAccount) (op o : Operation)
  (r : HistoRate) :
  remapOperation E a op r = Some o ->
  op_id o = account_id a ++ "-" ++ op_hash op ++ "-" ++ op_type o
  /\ op_accountId o = account_id a.
Proof.
  unfold remapOperation.
  destruct (obj_get (op_type op) cdaiToDaiOpMapping); [|discriminate].
  intros [= <-]. auto.
Qed.

(** * Further properties of the module *)

(** ** The inferred pairs *)

Lemma obj_set_key_In {V} (k k' : string) (v : V) (o : Obj V) :
  In k' (map fst (obj_set k v o)) -> k' = k \/ In k' (map fst o).
Proof.
  induction o as [|[k0 v0] o IH]; simpl.
  - intros [<-|[]]. now left.
  - destruct (decide (k0 = k)) as [->|Hne]; simpl.
    + intros [<-|H]; [now left | right; now right].
    + intros [<-|H]; [right; now left|].
      destruct (IH H); [now left | right; now right].
Qed.

Lemma obj_set_NoDup {V} (k : string) (v : V) (o : Obj V) :
  NoDup (map fst o) -> NoDup (map fst (obj_set k v o)).
Proof.
  induction o as [|[k0 v0] o IH]; simpl; intros Hnd.
  - apply NoDup_singleton.
  - apply NoDup_cons in Hnd. destruct Hnd as [Hk0 Hnd].
    destruct (decide (k0 = k)) as [->|Hne]; simpl.
    + apply NoDup_cons. split; assumption.
    + apply NoDup_cons. split; [|auto].
      intros Hin. apply list_elem_of_In, obj_set_key_In in Hin.
      destruct Hin as [->|Hin]; [congruence|].
      apply Hk0. now apply list_elem_of_In.
Qed.

Lemma obj_get_of_In {V} (k : string) (v : V) (o : Obj V) :
  NoDup (map fst o) -> In (k, v) o -> obj_get k o = Some v.
Proof.
  induction o as [|[k0 v0] o IH]; simpl; [tauto|].
  intros Hnd [[= -> ->]|Hin].
  - destruct (decide (k = k)); [reflexivity | congruence].
  - apply NoDup_cons in Hnd. destruct Hnd as [Hk0 Hnd].
    destruct (decide (k0 = k)) as [->|]; [|auto].
    exfalso. apply Hk0. apply list_elem_of_In.
    change k with (fst (k, v)). now apply in_map.
Qed.

Lemma inferLoop_NoDup (E : Env) (subAccounts : list TokenAccount)
  (tokens : list TokenCurrency) (o m : Obj Compound) :
  NoDup (map fst o) ->
  inferLoop E subAccounts tokens o = Ok m ->
  NoDup (map fst m).
Proof.
  revert o. induction tokens as [|c tokens IH]; intros o Hnd; simpl.
  - now intros [= <-].
  - intros Hloop. apply bind_Ok in Hloop.
    destruct Hloop as (o' & Hstep & Hloop). apply (IH o'); [|exact Hloop].
    destruct (inferStep_cases E subAccounts o c)
      as [[Hs _]|(k & _ & Hs)]; rewrite Hs in Hstep.
    + now injection Hstep as <-.
    + apply bind_Ok in Hstep. destruct Hstep as (tok & _ & [= <-]).
      now apply obj_set_NoDup.
Qed.

Lemma inferLoop_Err (E : Env) (subAccounts : list TokenAccount)
  (tokens : list TokenCurrency) (o : Obj Compound) (e : Error) :
  inferLoop E subAccounts tokens o = Err e ->
  exists c k, In c tokens /\ pairs subAccounts c k
    /\ getTokenById E k = None /\ e = TokenNotFound k.
Proof.
  revert o. induction tokens as [|c tokens IH]; intros o; simpl;
    [discriminate|].
  destruct (inferStep_cases E subAccounts o c)
    as [[-> _]|(k & Hk & ->)]; simpl.
  - intros H. destruct (IH _ H) as (c' & k' & Hin & Hrest).
    exists c', k'. split; [now right | exact Hrest].
  - unfold getTokenById_or_throw.
    destruct (getTokenById E k) as [tok|] eqn:Htok; simpl.
    + intros H. destruct (IH _ H) as (c' & k' & Hin & Hrest).
      exists c', k'. split; [now right | exact Hrest].
    + intros [= <-]. exists c, k. split; [now left | auto].
Qed.

Lemma inferLoop_without_pairs (E : Env) (subAccounts : list TokenAccount)
  (tokens : list TokenCurrency) (o : Obj Compound) :
  (forall c k, In c tokens -> ~ pairs subAccounts c k) ->
  inferLoop E subAccounts tokens o = Ok o.
Proof.
  induction tokens as [|c tokens IH]; intros Hno; simpl; [reflexivity|].
  destruct (inferStep_cases E subAccounts o c)
    as [[-> _]|(k & Hk & _)]; simpl.
  - apply IH. intros c' k' Hin. apply Hno. now right.
  - exfalso. exact (Hno c k (or_introl eq_refl) Hk).
Qed.

(** X1.  What [inferSubAccountsCompound] returns has one entry per id of a
    wrapped token; the entry under [k] is for a cToken of the registry that
    wraps [k], holds the token that the registry resolves [k] to, the first
    account whose token has id [k] and the first account of the cToken, and
    one of the two accounts at least is there. *)
Theorem inferSubAccountsCompound_entries (E : Env)
  (currency : CryptoCurrency) (subAccounts : list TokenAccount)
  (m : Obj Compound) :
  inferSubAccountsCompound E currency subAccounts = Ok m ->
  NoDup (map fst m)
  /\ forall k e,
       In (k, e) m ->
       In (ctoken e) (listTokensForCryptoCurrency E currency)
       /\ truthy (token_compoundFor (ctoken e)) = Some k
       /\ getTokenById E k = Some (token e)
       /\ tokenAccount e = find_tokenAccount k subAccounts
       /\ ctokenAccount e = find_ctokenAccount (ctoken e) subAccounts
       /\ (is_Some (tokenAccount e) \/ is_Some (ctokenAccount e))
       /\ (forall ta, tokenAccount e = Some ta ->
             In ta subAccounts /\ token_id (account_token ta) = k)
       /\ (forall ca, ctokenAccount e = Some ca ->
             In ca subAccounts /\ account_token ca = ctoken e).
Proof.
  intros Hm. unfold inferSubAccountsCompound in Hm.
  assert (Hnd : NoDup (map fst m))
    by (eapply inferLoop_NoDup; [|exact Hm]; constructor).
  split; [exact Hnd|]. intros k e Hin.
  pose proof (obj_get_of_In k e m Hnd Hin) as Hget.
  destruct (inferLoop_get E subAccounts _ [] m k e Hm Hget)
    as [[=]|(c & tok & Hc & [Hk Hfound] & Htok & ->)].
  simpl. split; [exact Hc|]. split; [exact Hk|]. split; [exact Htok|].
  split; [reflexivity|]. split; [reflexivity|]. split; [exact Hfound|].
  split.
  - intros ta Hta.
    unfold find_tokenAccount in Hta. apply find_some in Hta.
    destruct Hta as [Hta Hid]. now apply bool_decide_eq_true in Hid.
  - intros ca Hca. unfold find_ctokenAccount in Hca. apply find_some in Hca.
    destruct Hca as [Hca Htoken]. now apply bool_decide_eq_true in Htoken.
Qed.

Lemma inferSubAccountsCompound_entries_witness :
  NoDup (map fst Sample.inferred)
  /\ forall k e,
       In (k, e) Sample.inferred ->
       In (ctoken e) (listTokensForCryptoCurrency Sample.up Sample.ethereum)
       /\ truthy (token_compoundFor (ctoken e)) = Some k
       /\ getTokenById Sample.up k = Some (token e)
       /\ tokenAccount e = find_tokenAccount k Sample.both
       /\ ctokenAccount e = find_ctokenAccount (ctoken e) Sample.both
       /\ (is_Some (tokenAccount e) \/ is_Some (ctokenAccount e))
       /\ (forall ta, tokenAccount e = Some ta ->
             In ta Sample.both /\ token_id (account_token ta) = k)
       /\ (forall ca, ctokenAccount e = Some ca ->
             In ca Sample.both /\ account_token ca = ctoken e).
Proof.
  apply (inferSubAccountsCompound_entries Sample.up Sample.ethereum).
  vm_compute. reflexivity.
Defined.

(** X2.  [inferSubAccountsCompound] and [prepareTokenAccounts] fail in one
    case only: a cToken of the registry has one of its two accounts in the
    list and the registry does not resolve the id of the token it wraps; the
    failure is the one of [getTokenById] for that id.  The oracle plays no
    part in it. *)
Theorem prepareTokenAccounts_fails_on_unknown_token (E : Env)
  (currency : CryptoCurrency) (subAccounts : list TokenAccount) :
  (is_Ok (inferSubAccountsCompound E currency subAccounts)
   <-> forall c k,
         In c (listTokensForCryptoCurrency E currency) ->
         pairs subAccounts c k -> is_Some (getTokenById E k))
  /\ (forall e,
         prepareTokenAccounts E currency subAccounts = Err e ->
         disabled E currency = false
         /\ inferSubAccountsCompound E currency subAccounts = Err e
         /\ exists c k,
              In c (listTokensForCryptoCurrency E currency)
              /\ pairs subAccounts c k
              /\ getTokenById E k = None
              /\ e = TokenNotFound k).
Proof.
  split; [apply inferLoop_Ok_iff|].
  intros e. unfold prepareTokenAccounts.
  destruct (disabled E currency); [discriminate|].
  destruct (inferSubAccountsCompound E currency subAccounts) as [m|e']
    eqn:Hm; simpl.
  - destruct (omap _ _); discriminate.
  - intros [= ->]. split; [reflexivity|]. split; [reflexivity|].
    exact (inferLoop_Err _ _ _ _ _ Hm).
Qed.

Lemma prepareTokenAccounts_fails_on_unknown_token_witness :
  disabled Sample.unresolved Sample.ethereum = false
  /\ inferSubAccountsCompound Sample.unresolved Sample.ethereum Sample.both
     = Err (TokenNotFound "ethereum/erc20/dai")
  /\ exists c k,
       In c (listTokensForCryptoCurrency Sample.unresolved Sample.ethereum)
       /\ pairs Sample.both c k
       /\ getTokenById Sample.unresolved k = None
       /\ TokenNotFound "ethereum/erc20/dai" = TokenNotFound k.
Proof.
  apply (proj2 (prepareTokenAccounts_fails_on_unknown_token
                  Sample.unresolved Sample.ethereum Sample.both)).
  vm_compute. reflexivity.
Defined.

(** ** Placeholders, again *)

Lemma implicitCTokenAccount_Some (E : Env) (e : Compound)
  (p : TokenAccount) :
  implicitCTokenAccount E e = Some p
  <-> is_Some (tokenAccount e) /\ ctokenAccount e = None
      /\ p = emptyCTokenAccount E (ctoken e).
Proof.
  unfold implicitCTokenAccount.
  destruct (tokenAccount e) as [ta|], (ctokenAccount e) as [ca|]; split.
  - discriminate.
  - intros (_ & [=] & _).
  - intros [= <-]. eauto.
  - intros (_ & _ & ->). reflexivity.
  - discriminate.
  - intros ([? [=]] & _).
  - discriminate.
  - intros ([? [=]] & _).
Qed.

(** X3.  [prepareTokenAccounts] only appends: what it returns is the list it
    was given followed by placeholders, none when it returns the same array.
    Each placeholder is for a cToken of the registry whose wrapped token has
    an account in the list while the cToken has none; its id is "empty_"
    followed by the id of the cToken, its balances are 0 and it has no
    operation. *)
Theorem prepareTokenAccounts_appends_placeholders (E : Env)
  (currency : CryptoCurrency) (subAccounts : list TokenAccount)
  (r : Returned) :
  prepareTokenAccounts E currency subAccounts = Ok r ->
  exists placeholders,
    array_of subAccounts r = (subAccounts ++ placeholders)%list
    /\ (r = SameArray <-> placeholders = [])
    /\ Forall
         (fun p => exists c k,
              In c (listTokensForCryptoCurrency E currency)
              /\ truthy (token_compoundFor c) = Some k
              /\ is_Some (find_tokenAccount k subAccounts)
              /\ find_ctokenAccount c subAccounts = None
              /\ account_token p = c
              /\ account_id p = "empty_" ++ token_id c
              /\ account_balance p = 0
              /\ account_spendableBalance p = 0
              /\ account_operations p = []
              /\ account_pendingOperations p = [])
         placeholders.
Proof.
  unfold prepareTokenAccounts.
  destruct (disabled E currency).
  { intros [= <-]. exists []. simpl. rewrite app_nil_r.
    split; [reflexivity|]. split; [tauto | constructor]. }
  intros H. apply bind_Ok in H. destruct H as (m & Hm & H).
  assert (Hall : Forall
                   (fun p => exists c k,
                        In c (listTokensForCryptoCurrency E currency)
                        /\ truthy (token_compoundFor c) = Some k
                        /\ is_Some (find_tokenAccount k subAccounts)
                        /\ find_ctokenAccount c subAccounts = None
                        /\ account_token p = c
                        /\ account_id p = "empty_" ++ token_id c
                        /\ account_balance p = 0
                        /\ account_spendableBalance p = 0
                        /\ account_operations p = []
                        /\ account_pendingOperations p = [])
                   (omap (implicitCTokenAccount E) (obj_values m))).
  { apply Forall_forall. intros p Hp. apply list_elem_of_omap in Hp.
    destruct Hp as (e & He & Hp). apply list_elem_of_In in He.
    apply obj_values_get in He. destruct He as [k He].
    apply implicitCTokenAccount_Some in Hp.
    destruct Hp as (Hta & Hca & ->).
    destruct (inferLoop_In _ _ _ _ _ _ _ Hm He)
      as [[]|(c & tok & Hc & [Hk _] & ->)].
    simpl in *. exists c, k. repeat (split; [first [assumption|reflexivity]|]).
    reflexivity. }
  destruct (omap (implicitCTokenAccount E) (obj_values m)) as [|p ps].
  - injection H as <-. exists []. simpl. rewrite app_nil_r.
    split; [reflexivity|]. split; [tauto | constructor].
  - injection H as <-. exists (p :: ps). simpl.
    split; [reflexivity|]. split; [|exact Hall]. split; discriminate.
Qed.

Lemma prepareTokenAccounts_appends_placeholders_witness :
  exists placeholders,
    Sample.prepared = ([Sample.dai_account] ++ placeholders)%list
    /\ (NewArray Sample.prepared = SameArray <-> placeholders = [])
    /\ Forall
         (fun p => exists c k,
              In c (listTokensForCryptoCurrency Sample.up Sample.ethereum)
              /\ truthy (token_compoundFor c) = Some k
              /\ is_Some (find_tokenAccount k [Sample.dai_account])
              /\ find_ctokenAccount c [Sample.dai_account] = None
              /\ account_token p = c
              /\ account_id p = "empty_" ++ token_id c
              /\ account_balance p = 0
              /\ account_spendableBalance p = 0
              /\ account_operations p = []
              /\ account_pendingOperations p = [])
         placeholders.
Proof.
  apply (prepareTokenAccounts_appends_placeholders Sample.up Sample.ethereum
           [Sample.dai_account] (NewArray Sample.prepared)).
  vm_compute. reflexivity.
Defined.

(** X4.  When the module is enabled and a cToken is the only one of the
    registry to wrap its token, [prepareTokenAccounts] gives it a
    placeholder as soon as the wrapped token has an account in the list and
    the cToken has none: the result is a new array that holds the
    placeholder. *)
Theorem prepareTokenAccounts_adds_placeholder (E : Env)
  (currency : CryptoCurrency) (subAccounts : list TokenAccount)
  (r : Returned) (c : TokenCurrency) (k : string) :
  disabled E currency = false ->
  prepareTokenAccounts E currency subAccounts = Ok r ->
  In c (listTokensForCryptoCurrency E currency) ->
  truthy (token_compoundFor c) = Some k ->
  (forall c', In c' (listTokensForCryptoCurrency E currency) ->
              truthy (token_compoundFor c') = Some k -> c' = c) ->
  is_Some (find_tokenAccount k subAccounts) ->
  find_ctokenAccount c subAccounts = None ->
  r <> SameArray
  /\ In (emptyCTokenAccount E c) (array_of subAccounts r)
  /\ ~ In (emptyCTokenAccount E c) subAccounts.
Proof.
  intros Hon Hr Hc Hk Honly Hta Hca.
  unfold prepareTokenAccounts in Hr. rewrite Hon in Hr.
  apply bind_Ok in Hr. destruct Hr as (m & Hm & Hr).
  assert (Hp : pairs subAccounts c k) by (split; [exact Hk | now left]).
  destruct (inferLoop_sets E subAccounts _ [] m c k Hm Hc Hp) as [e He].
  destruct (inferLoop_get E subAccounts _ [] m k e Hm He)
    as [[=]|(c' & tok & Hc' & [Hk' _] & _ & ->)].
  rewrite (Honly c' Hc' Hk') in *.
  assert (Hin : In (emptyCTokenAccount E c)
                  (omap (implicitCTokenAccount E) (obj_values m))).
  { apply list_elem_of_In, list_elem_of_omap.
    eexists. split; [apply list_elem_of_In, (obj_get_In _ _ _ He)|].
    apply implicitCTokenAccount_Some. simpl. auto. }
  assert (Hnot : ~ In (emptyCTokenAccount E c) subAccounts).
  { intros Habs.
    assert (Hs : is_Some (find_ctokenAccount c subAccounts))
      by (apply find_ctokenAccount_is_Some; eauto).
    rewrite Hca in Hs. now destruct Hs. }
  destruct (omap (implicitCTokenAccount E) (obj_values m)) as [|p ps];
    [destruct Hin|].
  injection Hr as <-. split; [discriminate|]. split; [|exact Hnot].
  simpl. apply in_or_app. now right.
Qed.

Lemma prepareTokenAccounts_adds_placeholder_witness :
  NewArray Sample.prepared <> SameArray
  /\ In (emptyCTokenAccount Sample.up Sample.cdai)
        (array_of [Sample.dai_account] (NewArray Sample.prepared))
  /\ ~ In (emptyCTokenAccount Sample.up Sample.cdai) [Sample.dai_account].
Proof.
  apply (prepareTokenAccounts_adds_placeholder Sample.up Sample.ethereum
           [Sample.dai_account] (NewArray Sample.prepared) Sample.cdai
           "ethereum/erc20/dai").
  - vm_compute. reflexivity.
  - vm_compute. reflexivity.
  - right. left. reflexivity.
  - vm_compute. reflexivity.
  - intros c' [<-|[<-|[]]]; vm_compute; [discriminate | reflexivity].
  - vm_compute. eauto.
  - vm_compute. reflexivity.
Defined.

Lemma prepareTokenAccounts_appends_placeholders_aux (E : Env)
  (currency : CryptoCurrency) (subAccounts : list TokenAccount)
  (r : Returned) (p : TokenAccount) :
  prepareTokenAccounts E currency subAccounts = Ok r ->
  In p (array_of subAccounts r) ->
  ~ In p subAccounts ->
  exists c k,
    In c (listTokensForCryptoCurrency E currency)
    /\ truthy (token_compoundFor c) = Some k
    /\ account_token p = c.
Proof.
  unfold prepareTokenAccounts.
  destruct (disabled E currency); [intros [= <-]; simpl; tauto|].
  intros H. apply bind_Ok in H. destruct H as (m & Hm & H).
  destruct (omap (implicitCTokenAccount E) (obj_values m)) as [|p0 ps]
    eqn:Homap; injection H as <-; simpl; [tauto|].
  intros Hp Hnew. apply in_app_or in Hp. destruct Hp as [Hp|Hp]; [tauto|].
  rewrite <- Homap in Hp. apply list_elem_of_In, list_elem_of_omap in Hp.
  destruct Hp as (e & He & Hp). apply list_elem_of_In in He.
  apply obj_values_get in He. destruct He as [k He].
  apply implicitCTokenAccount_Some in Hp. destruct Hp as (_ & _ & ->).
  destruct (inferLoop_In _ _ _ _ _ _ _ Hm He)
    as [[]|(c & tok & Hc & [Hk _] & ->)].
  exists c, k. auto.
Qed.

(** X5.  What [prepareTokenAccounts] adds, [digestTokenAccounts] removes:
    an account that the first appended to a list is in no result of the
    second on the prepared list. *)
Theorem prepared_placeholders_are_digested (E : Env)
  (compoundPreloadedValue : gmap string Preloaded)
  (currency : CryptoCurrency) (subAccounts : list TokenAccount)
  (r r' : Returned) (p : TokenAccount) :
  prepareTokenAccounts E currency subAccounts = Ok r ->
  digestTokenAccounts E compoundPreloadedValue currency
    (array_of subAccounts r) = Ok r' ->
  In p (array_of subAccounts r) ->
  ~ In p subAccounts ->
  ~ In p (array_of (array_of subAccounts r) r').
Proof.
  intros Hr Hr' Hp Hnew Hleft.
  destruct (prepareTokenAccounts_appends_placeholders_aux E currency
              subAccounts r p Hr Hp Hnew) as (c & k & Hc & Hk & Htok).
  destruct (disabled E currency) eqn:Hon.
  { unfold prepareTokenAccounts in Hr. rewrite Hon in Hr.
    injection Hr as <-. exact (Hnew Hp). }
  destruct (digestTokenAccounts_open _ _ _ _ _ Hon Hr') as (m & Hm & _).
  exact (digested_without_ctoken E compoundPreloadedValue currency
           (array_of subAccounts r) r' m Hon Hr' Hm c k p Hc Hk Hleft Htok).
Qed.

Lemma prepared_placeholders_are_digested_witness :
  ~ In Sample.placeholder
       (array_of Sample.prepared
          (NewArray
             [ {| account_id := account_id Sample.dai_account;
                  account_token := Sample.dai;
                  account_parentId := account_parentId Sample.dai_account;
                  account_balance := 1000;
                  account_spendableBalance := 1000;
                  account_creationDate :=
                    account_creationDate Sample.dai_account;
                  account_operationsCount := 1;
                  account_operations :=
                    account_operations Sample.dai_account;
                  account_pendingOperations := [];
                  account_starred := false;
                  account_swapHistory := [] |} ])).
Proof.
  apply (prepared_placeholders_are_digested Sample.down Sample.preloaded
           Sample.ethereum [Sample.dai_account]
           (NewArray Sample.prepared)).
  - vm_compute. reflexivity.
  - vm_compute. reflexivity.
  - right. left. reflexivity.
  - intros [H|[]]. discriminate H.
Defined.

(** ** Lists with nothing to reconcile *)

(** X6.  When no account of the list has a cToken of the registry as its
    token or the id that such a cToken wraps as the id of its token, the
    empty list for one, [prepareTokenAccounts] and [digestTokenAccounts]
    return the array they were given, even when enabled: the registry is
    not asked to resolve anything and the oracle is not called. *)
Theorem unrelated_accounts_same_array (E : Env)
  (compoundPreloadedValue : gmap string Preloaded)
  (currency : CryptoCurrency) (subAccounts : list TokenAccount) :
  (forall a c k,
      In a subAccounts ->
      In c (listTokensForCryptoCurrency E currency) ->
      truthy (token_compoundFor c) = Some k ->
      token_id (account_token a) <> k /\ account_token a <> c) ->
  prepareTokenAccounts E currency subAccounts = Ok SameArray
  /\ digestTokenAccounts E compoundPreloadedValue currency subAccounts
     = Ok SameArray.
Proof.
  intros Hun.
  assert (Hm : inferSubAccountsCompound E currency subAccounts = Ok []).
  { apply inferLoop_without_pairs. intros c k Hc [Hk [Hta|Hca]].
    - apply find_tokenAccount_is_Some in Hta. destruct Hta as (a & Ha & Hid).
      now destruct (Hun a c k Ha Hc Hk).
    - apply find_ctokenAccount_is_Some in Hca.
      destruct Hca as (a & Ha & Htok). now destruct (Hun a c k Ha Hc Hk). }
  unfold prepareTokenAccounts, digestTokenAccounts.
  destruct (disabled E currency); [auto|]. rewrite Hm. auto.
Qed.

Lemma unrelated_accounts_same_array_witness :
  (prepareTokenAccounts Sample.unresolved Sample.ethereum [] = Ok SameArray
   /\ digestTokenAccounts Sample.unresolved Sample.preloaded Sample.ethereum
        [] = Ok SameArray)
  /\ (prepareTokenAccounts Sample.down Sample.ethereum
        [Sample.account "js:2:ethereum:0xAB:+usdt"
           {| token_id := "ethereum/erc20/usd_tether__erc20_";
              token_contractAddress :=
                "0xdAC17F958D2ee523a2206206994597C13D831ec7";
              token_compoundFor := None;
              token_magnitude := 6 |} 42 []]
      = Ok SameArray
      /\ digestTokenAccounts Sample.down Sample.preloaded Sample.ethereum
           [Sample.account "js:2:ethereum:0xAB:+usdt"
              {| token_id := "ethereum/erc20/usd_tether__erc20_";
                 token_contractAddress :=
                   "0xdAC17F958D2ee523a2206206994597C13D831ec7";
                 token_compoundFor := None;
                 token_magnitude := 6 |} 42 []]
         = Ok SameArray).
Proof.
  split; apply unrelated_accounts_same_array.
  - intros a c k [].
  - intros a c k [<-|[]] [<-|[<-|[]]]; vm_compute; intros [= <-].
    split; discriminate.
Defined.

(** ** The oracle is for operations only *)

(** X7.  [digestTokenAccounts] calls the oracle for the dates of the
    operations of the cToken accounts and for nothing else: when the
    accounts of the cTokens of the registry have no operation (as a
    placeholder has), it returns whatever the oracle does, provided the
    registry resolves the tokens that its cTokens wrap. *)
Theorem digestTokenAccounts_without_operations_needs_no_oracle (E : Env)
  (compoundPreloadedValue : gmap string Preloaded)
  (currency : CryptoCurrency) (subAccounts : list TokenAccount) :
  (forall c k,
      In c (listTokensForCryptoCurrency E currency) ->
      truthy (token_compoundFor c) = Some k ->
      is_Some (getTokenById E k)) ->
  (forall a c k,
      In a subAccounts ->
      In c (listTokensForCryptoCurrency E currency) ->
      truthy (token_compoundFor c) = Some k ->
      account_token a = c ->
      account_operations a = []) ->
  is_Ok (digestTokenAccounts E compoundPreloadedValue currency subAccounts).
Proof.
  intros Hreg Hnoops. unfold digestTokenAccounts.
  destruct (disabled E currency); [eexists; reflexivity|].
  destruct (proj2 (inferLoop_Ok_iff E subAccounts
                     (listTokensForCryptoCurrency E currency) []))
    as [m Hm].
  { intros c k Hc [Hk _]. eauto. }
  unfold inferSubAccountsCompound. rewrite Hm. simpl.
  destruct m as [|p m']; [eexists; reflexivity|].
  set (m := p :: m') in *.
  destruct (Array_map_all_Ok
              (digestTokenAccount E compoundPreloadedValue m) subAccounts)
    as [all Hall].
  - intros a _. unfold digestTokenAccount.
    destruct (truthy (token_compoundFor (account_token a))) as [k|].
    { destruct (obj_get k m); eexists; reflexivity. }
    destruct (obj_get (token_id (account_token a)) m) as [e|] eqn:Hget;
      [|eexists; reflexivity].
    destruct (ctokenAccount e) as [ca|] eqn:Hca; [|eexists; reflexivity].
    destruct (inferLoop_get E subAccounts _ [] m _ e Hm Hget)
      as [[=]|(c & tok & Hc & [Hk _] & _ & ->)].
    simpl in Hca. unfold find_ctokenAccount in Hca. apply find_some in Hca.
    destruct Hca as [Hin Htok]. apply bool_decide_eq_true in Htok.
    rewrite (Hnoops ca c _ Hin Hc Hk Htok). simpl. eexists; reflexivity.
  - unfold promiseAllBatched. rewrite Hall. eexists; reflexivity.
Qed.

Lemma digestTokenAccounts_without_operations_needs_no_oracle_witness :
  is_Ok (digestTokenAccounts Sample.down Sample.preloaded Sample.ethereum
           Sample.prepared).
Proof.
  apply digestTokenAccounts_without_operations_needs_no_oracle.
  - intros c k [<-|[<-|[]]]; vm_compute; intros [= <-]. eauto.
  - intros a c k [<-|[<-|[]]] _ Hk Htok; [|reflexivity].
    subst c. vm_compute in Hk. discriminate.
Defined.

(** ** What a digestion keeps *)

Lemma digestTokenAccount_shape (E : Env)
  (compoundPreloadedValue : gmap string Preloaded) (m : Obj Compound)
  (a : TokenAccount) (b : option TokenAccount) :
  digestTokenAccount E compoundPreloadedValue m a = Ok b ->
  match b with
  | None => is_ctoken_account a = true
  | Some a' =>
      differs_in_amounts_only a a'
      /\ (a' = a
          \/ (is_ctoken_account a = false
              /\ account_spendableBalance a' = account_balance a))
      /\ (is_ctoken_account a = true -> a' = a)
  end.
Proof.
  unfold digestTokenAccount, is_ctoken_account, differs_in_amounts_only.
  destruct (truthy (token_compoundFor (account_token a))) as [k|] eqn:Hk.
  - destruct (obj_get k m); intros [= <-].
    + apply bool_decide_eq_true. eauto.
    + repeat split; auto.
  - assert (Hplain : bool_decide (is_Some (@None string)) = false).
    { apply bool_decide_eq_false. intros [? [=]]. }
    rewrite Hplain.
    destruct (obj_get (token_id (account_token a)) m) as [e|].
    + destruct (ctokenAccount e) as [ca|].
      * intros H. apply bind_Ok in H. destruct H as (rates & _ & H).
        apply bind_Ok in H. destruct H as (newOps & _ & [= <-]).
        simpl. split; [repeat split|].
        split; [now right | discriminate].
      * intros [= <-].
        split; [repeat split|]. split; [now left | reflexivity].
    + intros [= <-].
      split; [repeat split|]. split; [now left | reflexivity].
Qed.

Lemma is_ctoken_account_token (a a' : TokenAccount) :
  account_token a' = account_token a ->
  is_ctoken_account a' = is_ctoken_account a.
Proof. unfold is_ctoken_account. now intros ->. Qed.

Lemma digested_list_shape (E : Env)
  (compoundPreloadedValue : gmap string Preloaded) (m : Obj Compound)
  (subAccounts : list TokenAccount) (all : list (option TokenAccount)) :
  Forall2 (fun a b => digestTokenAccount E compoundPreloadedValue m a = Ok b)
    subAccounts all ->
  sublist (map id_and_token (omap id all)) (map id_and_token subAccounts)
  /\ map id_and_token
         (List.filter (fun a => negb (is_ctoken_account a)) (omap id all))
     = map id_and_token
         (List.filter (fun a => negb (is_ctoken_account a)) subAccounts).
Proof.
  induction 1 as [|a b l all Hab Hrest [IHs IHf]]; simpl.
  - split; [constructor | reflexivity].
  - apply digestTokenAccount_shape in Hab. destruct b as [a'|]; simpl.
    + destruct Hab as ((Hid & Htok & _) & _ & _).
      assert (Hit : id_and_token a' = id_and_token a)
        by (unfold id_and_token; congruence).
      rewrite Hit, (is_ctoken_account_token a a' Htok). split.
      * now apply sublist_skip.
      * destruct (is_ctoken_account a); simpl; [exact IHf|].
        rewrite Hit. now f_equal.
    + rewrite Hab. simpl. split; [now apply sublist_cons | exact IHf].
Qed.

(** X8.  [digestTokenAccounts] adds no account, moves none and touches
    neither the id nor the token of an account: the accounts of the result
    are, by id and token, a sublist of the list it was given, and the
    accounts of plain tokens are all there, in the same order.  An account
    of a cToken that is in the result was in the list as it is. *)
Theorem digestTokenAccounts_keeps_plain_accounts (E : Env)
  (compoundPreloadedValue : gmap string Preloaded)
  (currency : CryptoCurrency) (subAccounts : list TokenAccount)
  (r : Returned) :
  digestTokenAccounts E compoundPreloadedValue currency subAccounts = Ok r ->
  sublist (map id_and_token (array_of subAccounts r))
          (map id_and_token subAccounts)
  /\ map id_and_token
         (List.filter (fun a => negb (is_ctoken_account a))
            (array_of subAccounts r))
     = map id_and_token
         (List.filter (fun a => negb (is_ctoken_account a)) subAccounts)
  /\ (forall a',
         In a' (array_of subAccounts r) ->
         is_ctoken_account a' = true ->
         In a' subAccounts).
Proof.
  intros Hd. destruct (disabled E currency) eqn:Hon.
  { unfold digestTokenAccounts in Hd. rewrite Hon in Hd.
    injection Hd as <-. simpl. auto. }
  destruct (digestTokenAccounts_open _ _ _ _ _ Hon Hd)
    as (m & Hm & [[-> ->]|(_ & all & Hall & ->)]); simpl; [auto|].
  destruct (digested_list_shape _ _ _ _ _ Hall) as [Hs Hf].
  split; [exact Hs|]. split; [exact Hf|].
  intros a' Ha' Hc.
  apply (Forall2_omap_id_In _ _ _ a' Hall) in Ha'.
  destruct Ha' as (a & Ha & Hdigest).
  apply digestTokenAccount_shape in Hdigest.
  destruct Hdigest as ((_ & Htok & _) & _ & Hsame).
  rewrite (is_ctoken_account_token a a' Htok) in Hc.
  now rewrite (Hsame Hc).
Qed.

Lemma digestTokenAccounts_keeps_plain_accounts_witness :
  sublist (map id_and_token Sample.digested) (map id_and_token Sample.both)
  /\ map id_and_token
         (List.filter (fun a => negb (is_ctoken_account a)) Sample.digested)
     = map id_and_token
         (List.filter (fun a => negb (is_ctoken_account a)) Sample.both)
  /\ (forall a',
         In a' Sample.digested ->
         is_ctoken_account a' = true ->
         In a' Sample.both).
Proof.
  apply (digestTokenAccounts_keeps_plain_accounts Sample.up Sample.preloaded
           Sample.ethereum Sample.both (NewArray Sample.digested)).
  vm_compute. reflexivity.
Defined.

(** X9.  Every account of a result of [digestTokenAccounts] comes from an
    account of the list and differs from it at most in its balance, its
    spendable balance and its operations; the count of operations, the
    pending operations and the rest are those of the account, also when
    operations were merged into it.  It is that account untouched, or that
    account, of a plain token, with its former balance as spendable
    balance. *)
Theorem digestTokenAccounts_changes_amounts_only (E : Env)
  (compoundPreloadedValue : gmap string Preloaded)
  (currency : CryptoCurrency) (subAccounts : list TokenAccount)
  (r : Returned) (a' : TokenAccount) :
  digestTokenAccounts E compoundPreloadedValue currency subAccounts = Ok r ->
  In a' (array_of subAccounts r) ->
  exists a,
    In a subAccounts
    /\ differs_in_amounts_only a a'
    /\ (a' = a
        \/ (is_ctoken_account a = false
            /\ account_spendableBalance a' = account_balance a)).
Proof.
  intros Hd Ha'. destruct (disabled E currency) eqn:Hon.
  { unfold digestTokenAccounts in Hd. rewrite Hon in Hd.
    injection Hd as <-. exists a'. split; [exact Ha'|].
    split; [repeat split | now left]. }
  destruct (digestTokenAccounts_open _ _ _ _ _ Hon Hd) as (m & Hm & _).
  apply (digestTokenAccounts_In _ _ _ _ _ _ a' Hon Hd Hm) in Ha'.
  destruct Ha' as (a & Ha & Hdigest).
  apply digestTokenAccount_shape in Hdigest.
  destruct Hdigest as (Hframe & Hcase & _). eauto.
Qed.

Lemma digestTokenAccounts_changes_amounts_only_witness :
  exists a,
    In a Sample.both
    /\ differs_in_amounts_only a (nth 0 Sample.digested Sample.dai_account)
    /\ (nth 0 Sample.digested Sample.dai_account = a
        \/ (is_ctoken_account a = false
            /\ account_spendableBalance
                 (nth 0 Sample.digested Sample.dai_account)
               = account_balance a)).
Proof.
  apply (digestTokenAccounts_changes_amounts_only Sample.up Sample.preloaded
           Sample.ethereum Sample.both (NewArray Sample.digested)).
  - vm_compute. reflexivity.
  - left. reflexivity.
Defined.

(** ** The operations that a merge makes *)

Lemma String_length_append (s t : string) :
  String.length (s ++ t) = (String.length s + String.length t)%nat.
Proof. induction s as [|c s IH]; simpl; [reflexivity | now rewrite IH]. Qed.

Lemma String_append_inj_l (s x y : string) : s ++ x = s ++ y -> x = y.
Proof. induction s as [|c s IH]; simpl; [auto | intros [= H]; auto]. Qed.

Lemma String_append_inj_same_length (x y s t : string) :
  String.length s = String.length t -> x ++ s = y ++ t -> x = y /\ s = t.
Proof.
  intros Hlen. revert y. induction x as [|c x IH]; intros [|c' y].
  - auto.
  - intros H. apply (f_equal String.length) in H.
    rewrite !String_length_append in H. simpl in H. lia.
  - intros H. apply (f_equal String.length) in H.
    rewrite !String_length_append in H. simpl in H. lia.
  - intros H. change (String c (x ++ s) = String c' (y ++ t)) in H.
    injection H as -> H. destruct (IH _ H) as [-> ->]. auto.
Qed.

(** Within an account, the id of a remapped operation tells its hash and
    its type. *)
Lemma remapped_id_inj (aid h1 h2 t1 t2 : string) :
  (t1 = "SUPPLY" \/ t1 = "REDEEM") ->
  (t2 = "SUPPLY" \/ t2 = "REDEEM") ->
  aid ++ "-" ++ h1 ++ "-" ++ t1 = aid ++ "-" ++ h2 ++ "-" ++ t2 ->
  h1 = h2 /\ t1 = t2.
Proof.
  intros Ht1 Ht2 H. apply String_append_inj_l in H.
  apply (String_append_inj_l "-") in H.
  apply String_append_inj_same_length in H.
  - destruct H as [-> H]. apply String_append_inj_l in H. auto.
  - destruct Ht1 as [->| ->], Ht2 as [->| ->]; reflexivity.
Qed.

Section Remapped.

Variable E : Env.
Variable compoundPreloadedValue : gmap string Preloaded.
Variable currency : CryptoCurrency.
Variable subAccounts : list TokenAccount.
Variable r : Returned.
Variable m : Obj Compound.
Variable a : TokenAccount.
Variable c : Compound.
Variable ca : TokenAccount.

Hypothesis enabled : disabled E currency = false.
Hypothesis digested :
  digestTokenAccounts E compoundPreloadedValue currency subAccounts = Ok r.
Hypothesis inferred :
  inferSubAccountsCompound E currency subAccounts = Ok m.
Hypothesis a_in : In a subAccounts.
Hypothesis a_merges : merges m a c ca.

(** X10.  An operation that a merge makes out of an operation of the cToken
    account keeps its hash and its date, belongs to the account it is merged
    into, has for id the id of that account, the hash and the new type
    joined by dashes, and records in [extra] the value it had in cToken and
    the string of the historical rate at its date. *)
Theorem remapped_operation_fields :
  exists a' newOps,
    In a' (array_of subAccounts r)
    /\ digestTokenAccount E compoundPreloadedValue m a = Ok (Some a')
    /\ account_operations a' = mergeOps E (account_operations a) newOps
    /\ Forall
         (fun o => exists op rate,
              In op (account_operations ca)
              /\ fetchHistoricalRate E (ctoken c) (op_date op) = Ok rate
              /\ op_id o
                 = account_id a ++ "-" ++ op_hash op ++ "-" ++ op_type o
              /\ op_accountId o = account_id a
              /\ op_hash o = op_hash op
              /\ op_date o = op_date op
              /\ op_extra o
                 = [("compoundValue", ExtraBigNumber (op_value op));
                    ("rate",
                     ExtraString (BigNumber_toString E (histo_rate rate)))])
         newOps.
Proof.
  destruct (digestTokenAccounts_merged E compoundPreloadedValue currency
              subAccounts r m a c ca enabled digested inferred a_in a_merges)
    as (rates & a' & Hrates & Hin & Ha' & _ & _ & Hops).
  eexists a', _. split; [exact Hin|]. split; [exact Ha'|].
  split; [exact Hops|].
  apply Forall_forall. intros o Ho. apply list_elem_of_omap in Ho.
  destruct Ho as ([op rate] & Hzip & Hremap). simpl in Hremap.
  rewrite list_elem_of_In in Hzip.
  destruct (zip_rates_each _ _ _ _ _ _ Hrates Hzip) as [Hop Hrate].
  exists op, rate. split; [exact Hop|]. split; [exact Hrate|].
  unfold remapOperation in Hremap.
  destruct (obj_get (op_type op) cdaiToDaiOpMapping); [|discriminate].
  injection Hremap as <-. simpl. auto 10.
Qed.

(** X11.  Two operations that one merge makes have the same id only if they
    have the same hash and the same type: the id never confuses two
    operations of the cToken account that differ in one or the other. *)
Theorem remapped_operation_ids_tell_hash_and_type :
  exists a' newOps,
    In a' (array_of subAccounts r)
    /\ digestTokenAccount E compoundPreloadedValue m a = Ok (Some a')
    /\ account_operations a' = mergeOps E (account_operations a) newOps
    /\ forall o1 o2,
         In o1 newOps -> In o2 newOps ->
         op_id o1 = op_id o2 ->
         op_hash o1 = op_hash o2 /\ op_type o1 = op_type o2.
Proof.
  destruct (digestTokenAccounts_merged E compoundPreloadedValue currency
              subAccounts r m a c ca enabled digested inferred a_in a_merges)
    as (rates & a' & Hrates & Hin & Ha' & _ & _ & Hops).
  eexists a', _. split; [exact Hin|]. split; [exact Ha'|].
  split; [exact Hops|].
  assert (Hshape : forall o,
             In o (omap (fun p => remapOperation E a (fst p) (snd p))
                        (zip (account_operations ca) rates)) ->
             op_id o = account_id a ++ "-" ++ op_hash o ++ "-" ++ op_type o
             /\ (op_type o = "SUPPLY" \/ op_type o = "REDEEM")).
  { intros o Ho. apply list_elem_of_In, list_elem_of_omap in Ho.
    destruct Ho as ([op rate] & _ & Hremap). simpl in Hremap.
    destruct (remapOperation_id _ _ _ _ _ Hremap) as [Hid _].
    destruct (remapOperation_Some _ _ _ _ _ Hremap) as (Hhash & _).
    split; [now rewrite Hhash|].
    pose proof (remapOperation_type E a op rate) as Ht.
    rewrite Hremap in Ht. unfold supply_or_redeem in Ht. simpl in Ht.
    destruct (decide (op_type op = "IN"));
      [injection Ht as _ ->; now left|].
    destruct (decide (op_type op = "OUT"));
      [injection Ht as _ ->; now right | discriminate]. }
  intros o1 o2 Ho1 Ho2 Hid.
  destruct (Hshape o1 Ho1) as [Hid1 Ht1], (Hshape o2 Ho2) as [Hid2 Ht2].
  rewrite Hid1, Hid2 in Hid.
  exact (remapped_id_inj _ _ _ _ _ Ht1 Ht2 Hid).
Qed.

End Remapped.

Lemma remapped_operation_fields_witness :
  exists a' newOps,
    In a' Sample.digested
    /\ digestTokenAccount Sample.up Sample.preloaded Sample.inferred
         Sample.dai_account = Ok (Some a')
    /\ account_operations a'
       = mergeOps Sample.up (account_operations Sample.dai_account) newOps
    /\ Forall
         (fun o => exists op rate,
              In op (account_operations Sample.cdai_account)
              /\ fetchHistoricalRate Sample.up (ctoken Sample.dai_entry)
                   (op_date op) = Ok rate
              /\ op_id o
                 = account_id Sample.dai_account ++ "-" ++ op_hash op
                   ++ "-" ++ op_type o
              /\ op_accountId o = account_id Sample.dai_account
              /\ op_hash o = op_hash op
              /\ op_date o = op_date op
              /\ op_extra o
                 = [("compoundValue", ExtraBigNumber (op_value op));
                    ("rate",
                     ExtraString
                       (BigNumber_toString Sample.up (histo_rate rate)))])
         newOps.
Proof. sample_merge remapped_operation_fields. Defined.

Lemma remapped_operation_ids_tell_hash_and_type_witness :
  exists a' newOps,
    In a' Sample.digested
    /\ digestTokenAccount Sample.up Sample.preloaded Sample.inferred
         Sample.dai_account = Ok (Some a')
    /\ account_operations a'
       = mergeOps Sample.up (account_operations Sample.dai_account) newOps
    /\ forall o1 o2,
         In o1 newOps -> In o2 newOps ->
         op_id o1 = op_id o2 ->
         op_hash o1 = op_hash o2 /\ op_type o1 = op_type o2.
Proof. sample_merge remapped_operation_ids_tell_hash_and_type. Defined.

(** ** Rates from the oracle *)

Lemma fetchHistoricalRate_token (E : Env) (t : TokenCurrency) (d : Z)
  (r : HistoRate) :
  fetchHistoricalRate E t d = Ok r -> histo_token r = t.
Proof.
  unfold fetchHistoricalRate. intros H. apply bind_Ok in H.
  destruct H as (data & _ & H).
  destruct (find_cToken data t); [|now injection H as <-].
  apply bind_Ok in H. destruct H as (q & _ & [= <-]). reflexivity.
Qed.

(** X12.  [fetchHistoricalRates] answers with one rate per date, in the
    order of the dates: the rate at an index is the one fetched for the date
    at that index, and it carries the token that was asked for. *)
Theorem fetchHistoricalRates_one_rate_per_date (E : Env)
  (t : TokenCurrency) (dates : list Z) (rates : list HistoRate) :
  fetchHistoricalRates E t dates = Ok rates ->
  length rates = length dates
  /\ forall (i : nat) (d : Z),
       dates !! i = Some d ->
       exists r, rates !! i = Some r
         /\ fetchHistoricalRate E t d = Ok r
         /\ histo_token r = t.
Proof.
  intros H. split; [exact (Array_map_length _ _ _ H)|].
  apply Array_map_Forall2 in H. intros i d Hd.
  destruct (Forall2_lookup_l _ _ _ _ _ H Hd) as (r & Hr & Hfetch).
  exists r. split; [exact Hr|]. split; [exact Hfetch|].
  exact (fetchHistoricalRate_token _ _ _ _ Hfetch).
Qed.

Lemma fetchHistoricalRates_one_rate_per_date_witness :
  length Sample.rates
  = length (map op_date (account_operations Sample.cdai_account))
  /\ forall (i : nat) (d : Z),
       map op_date (account_operations Sample.cdai_account) !! i = Some d ->
       exists r, Sample.rates !! i = Some r
         /\ fetchHistoricalRate Sample.up Sample.cdai d = Ok r
         /\ histo_token r = Sample.cdai.
Proof.
  apply fetchHistoricalRates_one_rate_per_date.
  vm_compute. reflexivity.
Defined.



(** X14.  [fetchCurrentRates] makes no request for an empty list of tokens;
    otherwise it makes one request, and answers with one rate per token, in
    the order of the tokens, each read off the response to that request. *)
Theorem fetchCurrentRates_one_rate_per_token (E : Env)
  (tokens : list TokenCurrency) :
  (tokens = [] -> fetchCurrentRates E tokens = Ok [])
  /\ forall rs,
       tokens <> [] ->
       fetchCurrentRates E tokens = Ok rs ->
       map current_token rs = tokens
       /\ exists data,
            fetch E 0 [String.concat "," (map token_contractAddress tokens)]
            = Ok data
            /\ Forall2 (fun t r => currentRate_of E data t = Ok r) tokens rs.
Proof.
  split; [now intros ->|].
  intros rs Hne Hrs. unfold fetchCurrentRates in Hrs.
  destruct tokens as [|t0 tokens]; [congruence|].
  apply bind_Ok in Hrs. destruct Hrs as (data & Hdata & Hrs).
  apply Array_map_Forall2 in Hrs. split; [|eauto].
  clear Hdata Hne. induction Hrs as [|t r ts rs' Hr Hrest IH];
    [reflexivity|].
  simpl. f_equal; [|exact IH].
  unfold currentRate_of in Hr.
  destruct (find_cToken data t); [|now injection Hr as <-].
  apply bind_Ok in Hr. destruct Hr as (q & _ & [= <-]). reflexivity.
Qed.

Lemma fetchCurrentRates_one_rate_per_token_witness :
  fetchCurrentRates Sample.down [] = Ok []
  /\ exists rs,
       fetchCurrentRates Sample.up [Sample.cdai] = Ok rs
       /\ map current_token rs = [Sample.cdai].
Proof.
  pose proof (fetchCurrentRates_one_rate_per_token Sample.down [])
    as [Hempty _].
  pose proof (fetchCurrentRates_one_rate_per_token Sample.up [Sample.cdai])
    as [_ Hone].
  split; [now apply Hempty|].
  eexists. split; [vm_compute; reflexivity|].
  apply Hone; [discriminate | vm_compute; reflexivity].
Defined.

(** ** The table that [preload] builds *)

Lemma fetchCurrentRates_tokens (E : Env) (tokens : list TokenCurrency)
  (rs : list CurrentRate) :
  fetchCurrentRates E tokens = Ok rs ->
  exists data,
    (tokens <> [] ->
     fetch E 0 [String.concat "," (map token_contractAddress tokens)]
     = Ok data)
    /\ Forall2 (fun t r => currentRate_of E data t = Ok r
                           /\ current_token r = t) tokens rs.
Proof.
  unfold fetchCurrentRates. destruct tokens as [|t0 tokens].
  { intros [= <-]. exists {| data_cToken := [] |}. split; [tauto|constructor]. }
  intros Hrs. apply bind_Ok in Hrs. destruct Hrs as (data & Hdata & Hrs).
  exists data. split; [auto|]. apply Array_map_Forall2 in Hrs.
  clear Hdata. induction Hrs as [|t r ts rs' Hr Hrest IH]; constructor;
    [|exact IH].
  split; [exact Hr|]. unfold currentRate_of in Hr.
  destruct (find_cToken data t); [|now injection Hr as <-].
  apply bind_Ok in Hr. destruct Hr as (q & _ & [= <-]). reflexivity.
Qed.

Lemma preloaded_fold_is_Some (E : Env) (rs : list CurrentRate)
  (init : gmap string Preloaded) (id : string) :
  is_Some (fold_left
             (fun (preloaded : gmap string Preloaded) r =>
                <[ token_id (current_token r) :=
                     {| rate := BigNumber_toString E (current_rate r);
                        supplyAPY := current_supplyAPY r |} ]> preloaded)
             rs init !! id)
  <-> is_Some (init !! id)
      \/ exists r, In r rs /\ token_id (current_token r) = id.
Proof.
  revert init. induction rs as [|r rs IH]; intros init; simpl.
  - split; [auto | intros [H|(r & [] & _)]; exact H].
  - rewrite IH. rewrite lookup_insert_is_Some. split.
    + intros [[Heq|[_ H]]|(r' & Hin & Hid)]; eauto.
    + intros [H|(r' & [<-|Hin] & Hid)]; eauto.
      destruct (decide (token_id (current_token r) = id)); auto.
Qed.

Lemma preloaded_fold_lookup (E : Env) (rs : list CurrentRate)
  (init : gmap string Preloaded) (r : CurrentRate) :
  NoDup (map (fun r => token_id (current_token r)) rs) ->
  In r rs ->
  fold_left
    (fun (preloaded : gmap string Preloaded) r =>
       <[ token_id (current_token r) :=
            {| rate := BigNumber_toString E (current_rate r);
               supplyAPY := current_supplyAPY r |} ]> preloaded)
    rs init !! token_id (current_token r)
  = Some (preloaded_entry E r).
Proof.
  revert init. induction rs as [|r0 rs IH]; intros init Hnd; simpl; [tauto|].
  apply NoDup_cons in Hnd. destruct Hnd as [Hr0 Hnd].
  intros [->|Hin]; [|auto].
  destruct (fold_left _ rs _ !! token_id (current_token r)) as [p|] eqn:Hp.
  - assert (Hs : is_Some (Some p)) by eauto. rewrite <- Hp in Hs.
    apply preloaded_fold_is_Some in Hs.
    destruct Hs as [Hs|(r' & Hin & Hid)].
    + rewrite <- Hp. clear Hp Hs.
      assert (Hkeep : forall l (i : gmap string Preloaded),
                 ~ In (token_id (current_token r))
                      (map (fun r => token_id (current_token r)) l) ->
                 fold_left
                   (fun (preloaded : gmap string Preloaded) r =>
                      <[ token_id (current_token r) :=
                           {| rate := BigNumber_toString E (current_rate r);
                              supplyAPY := current_supplyAPY r |} ]>
                        preloaded)
                   l i !! token_id (current_token r)
                 = i !! token_id (current_token r)).
      { induction l as [|x l IHl]; intros i Hx; simpl; [reflexivity|].
        rewrite IHl by (simpl in Hx; tauto).
        apply lookup_insert_ne. simpl in Hx. intros Heq. apply Hx. now left. }
      rewrite Hkeep by (intros H; apply Hr0; now apply list_elem_of_In).
      apply lookup_insert_eq.
    + exfalso. apply Hr0. apply list_elem_of_In. rewrite <- Hid.
      now apply (in_map (fun r => token_id (current_token r))).
  - exfalso.
    assert (Hs : is_Some (fold_left
                            (fun (preloaded : gmap string Preloaded) r =>
                               <[ token_id (current_token r) :=
                                    {| rate := BigNumber_toString E
                                                 (current_rate r);
                                       supplyAPY := current_supplyAPY r |} ]>
                                 preloaded)
                            rs (<[ token_id (current_token r) :=
                                     {| rate := BigNumber_toString E
                                                  (current_rate r);
                                        supplyAPY := current_supplyAPY r |} ]>
                                  init)
                          !! token_id (current_token r))).
    { apply preloaded_fold_is_Some. left. rewrite lookup_insert_eq. eauto. }
    rewrite Hp in Hs. now destruct Hs.
Qed.

Lemma Forall2_In_l {A B} (P : A -> B -> Prop) (l : list A) (k : list B)
  (x : A) :
  Forall2 P l k -> In x l -> exists y, In y k /\ P x y.
Proof.
  induction 1 as [|x0 y0 l k Hxy Hrest IH]; simpl; [tauto|].
  intros [<-|Hin]; [eauto|]. destruct (IH Hin) as (y & Hy & Hp). eauto.
Qed.

Lemma Forall2_In_r {A B} (P : A -> B -> Prop) (l : list A) (k : list B)
  (y : B) :
  Forall2 P l k -> In y k -> exists x, In x l /\ P x y.
Proof.
  induction 1 as [|x0 y0 l k Hxy Hrest IH]; simpl; [tauto|].
  intros [<-|Hin]; [eauto|]. destruct (IH Hin) as (x & Hx & Hp). eauto.
Qed.

Lemma In_ctokens (E : Env) (t : TokenCurrency) :
  In t (filter (fun t => is_Some (truthy (token_compoundFor t)))
          (listTokens E))
  <-> In t (listTokens E) /\ is_Some (truthy (token_compoundFor t)).
Proof.
  rewrite <- !list_elem_of_In, list_elem_of_filter. tauto.
Qed.

(** X15.  With the COMPOUND flag off, [preload] resolves to an empty table
    and leaves the table of the module as it was.  With the flag on, the
    table it resolves to replaces the table of the module, and has an entry
    for the id of every token of the registry that wraps a token, and for
    nothing else: what the table held before is gone. *)
Theorem preload_table (E : Env)
  (compoundPreloadedValue table value : gmap string Preloaded) :
  preload E compoundPreloadedValue = Ok (table, value) ->
  (getEnv_COMPOUND E = false ->
   table = compoundPreloadedValue /\ value = ∅)
  /\ (getEnv_COMPOUND E = true ->
      table = value
      /\ forall id,
           is_Some (value !! id)
           <-> exists t, In t (listTokens E)
                 /\ is_Some (truthy (token_compoundFor t))
                 /\ token_id t = id).
Proof.
  unfold preload. destruct (getEnv_COMPOUND E); simpl.
  - intros H. apply bind_Ok in H. destruct H as (rs & Hrs & [= <- <-]).
    split; [discriminate|]. intros _. split; [reflexivity|]. intros id.
    rewrite preloaded_fold_is_Some.
    destruct (fetchCurrentRates_tokens _ _ _ Hrs) as (data & _ & Hall).
    split.
    + intros [[p Hp]|(r & Hin & Hid)]; [now rewrite lookup_empty in Hp|].
      destruct (Forall2_In_r _ _ _ _ Hall Hin) as (t & Ht & _ & Htok).
      apply In_ctokens in Ht. destruct Ht as [Ht Hc].
      exists t. rewrite Htok in Hid. auto.
    + intros (t & Ht & Hc & Hid). right.
      destruct (Forall2_In_l _ _ _ t Hall) as (r & Hr & _ & Htok);
        [now apply In_ctokens|].
      exists r. rewrite Htok. auto.
  - intros [= <- <-]. split; [auto | discriminate].
Qed.

Lemma preload_table_witness :
  (Sample.preloaded = Sample.preloaded
   /\ forall id,
        is_Some (Sample.preloaded !! id)
        <-> exists t, In t (listTokens Sample.up)
              /\ is_Some (truthy (token_compoundFor t))
              /\ token_id t = id)
  /\ ({[ "stale" := {| rate := "1"; supplyAPY := "" |} ]}
      = ({[ "stale" := {| rate := "1"; supplyAPY := "" |} ]}
         : gmap string Preloaded)
      /\ (∅ : gmap string Preloaded) = ∅).
Proof.
  split.
  - refine (proj2 (preload_table Sample.up
                     {[ "stale" := {| rate := "1"; supplyAPY := "" |} ]}
                     Sample.preloaded Sample.preloaded _) _);
      [vm_compute; reflexivity | reflexivity].
  - refine (proj1 (preload_table (Sample.env false Sample.oracle_up)
                     {[ "stale" := {| rate := "1"; supplyAPY := "" |} ]}
                     {[ "stale" := {| rate := "1"; supplyAPY := "" |} ]}
                     ∅ _) _);
      [vm_compute; reflexivity | reflexivity].
Defined.

Lemma NoDup_map_filter {A B} (f : A -> B) (P : A -> Prop)
  `{forall x, Decision (P x)} (l : list A) :
  NoDup (map f l) -> NoDup (map f (filter P l)).
Proof.
  induction l as [|x l IH]; simpl; [auto|].
  intros Hnd. apply NoDup_cons in Hnd. destruct Hnd as [Hx Hnd].
  rewrite filter_cons. destruct (decide (P x)); [|auto].
  simpl. apply NoDup_cons. split; [|auto].
  intros Hin. apply Hx. apply list_elem_of_In in Hin.
  apply in_map_iff in Hin. destruct Hin as (y & Hy & Hin).
  apply list_elem_of_In. rewrite <- Hy. apply in_map.
  apply list_elem_of_In in Hin. apply list_elem_of_filter in Hin.
  apply list_elem_of_In. tauto.
Qed.

(** X16.  After a [preload] with the COMPOUND flag on, and with a registry
    whose tokens have distinct ids, [getCTokenRate] and [getCTokenSupplyAPY]
    of a token that wraps a token give the current rate that was fetched for
    it, read back from its string, and its APY string. *)
Theorem preload_then_getCTokenRate (E : Env)
  (compoundPreloadedValue table value : gmap string Preloaded)
  (t : TokenCurrency) :
  getEnv_COMPOUND E = true ->
  NoDup (map token_id (listTokens E)) ->
  preload E compoundPreloadedValue = Ok (table, value) ->
  In t (listTokens E) ->
  is_Some (truthy (token_compoundFor t)) ->
  exists data r,
    fetch E 0
      [String.concat ","
         (map token_contractAddress
            (filter (fun t => is_Some (truthy (token_compoundFor t)))
               (listTokens E)))]
    = Ok data
    /\ currentRate_of E data t = Ok r
    /\ getCTokenRate E table t
       = BigNumber_of_string E (BigNumber_toString E (current_rate r))
    /\ getCTokenSupplyAPY table t = current_supplyAPY r.
Proof.
  intros Hflag Hnd Hpre Ht Hc. unfold preload in Hpre.
  rewrite Hflag in Hpre. simpl in Hpre.
  apply bind_Ok in Hpre. destruct Hpre as (rs & Hrs & [= <- _]).
  destruct (fetchCurrentRates_tokens _ _ _ Hrs) as (data & Hdata & Hall).
  assert (Hin : In t (filter (fun t => is_Some (truthy (token_compoundFor t)))
                        (listTokens E))) by now apply In_ctokens.
  destruct (Forall2_In_l _ _ _ t Hall Hin) as (r & Hr & Hrate & Htok).
  exists data, r. split.
  { apply Hdata. intros Hnil. rewrite Hnil in Hin. destruct Hin. }
  split; [exact Hrate|].
  assert (Hkeys : map (fun r => token_id (current_token r)) rs
                  = map token_id
                      (filter (fun t => is_Some
                                          (truthy (token_compoundFor t)))
                         (listTokens E))).
  { clear -Hall. induction Hall as [|x y l k [_ Hxy] _ IH]; simpl;
      [reflexivity|]. now rewrite Hxy, IH. }
  assert (Hlookup := preloaded_fold_lookup E rs ∅ r).
  rewrite Hkeys in Hlookup.
  specialize (Hlookup (NoDup_map_filter _ _ _ Hnd) Hr).
  rewrite Htok in Hlookup.
  unfold getCTokenRate, getCTokenSupplyAPY. rewrite Hlookup. auto.
Qed.

Lemma preload_then_getCTokenRate_witness :
  exists data r,
    fetch Sample.up 0
      [String.concat ","
         (map token_contractAddress
            (filter (fun t => is_Some (truthy (token_compoundFor t)))
               (listTokens Sample.up)))]
    = Ok data
    /\ currentRate_of Sample.up data Sample.cdai = Ok r
    /\ getCTokenRate Sample.up Sample.preloaded Sample.cdai
       = BigNumber_of_string Sample.up
           (BigNumber_toString Sample.up (current_rate r))
    /\ getCTokenSupplyAPY Sample.preloaded Sample.cdai = current_supplyAPY r.
Proof.
  apply (preload_then_getCTokenRate Sample.up ∅ Sample.preloaded
           Sample.preloaded Sample.cdai).
  - reflexivity.
  - apply (bool_decide_unpack _). vm_compute. exact I.
  - vm_compute. reflexivity.
  - right. left. reflexivity.
  - vm_compute. eauto.
Defined.

(** ** Balances that come out exact *)

Lemma integerValue_integral (x : Q) (p : Z) :
  (x == inject_Z p)%Q -> integerValue x = p.
Proof.
  intros Hx.
  apply (rounds_half_away_from_zero_unique x); [apply integerValue_rounds|].
  split; intros _; split; lra.
Qed.

Section Exact.

Variable E : Env.
Variable compoundPreloadedValue : gmap string Preloaded.
Variable currency : CryptoCurrency.
Variable subAccounts : list TokenAccount.
Variable r : Returned.
Variable m : Obj Compound.
Variable a : TokenAccount.
Variable c : Compound.
Variable ca : TokenAccount.

Hypothesis enabled : disabled E currency = false.
Hypothesis digested :
  digestTokenAccounts E compoundPreloadedValue currency subAccounts = Ok r.
Hypothesis inferred :
  inferSubAccountsCompound E currency subAccounts = Ok m.
Hypothesis a_in : In a subAccounts.
Hypothesis a_merges : merges m a c ca.

(** X17.  When the balance of the cToken account times the current rate is
    an integer, the merged balance is the balance of the account plus that
    integer, with no rounding: so it is for a rate that is an integer, and
    the merged balance is the balance of the account when the cToken
    balance or the rate is 0. *)
Theorem merged_balance_exact_when_integral (p : Z) :
  (inject_Z (account_balance ca)
   * getCTokenRate E compoundPreloadedValue (ctoken c) == inject_Z p)%Q ->
  exists a',
    In a' (array_of subAccounts r)
    /\ digestTokenAccount E compoundPreloadedValue m a = Ok (Some a')
    /\ account_balance a' = account_balance a + p.
Proof.
  intros Hp.
  destruct (digestTokenAccounts_merged E compoundPreloadedValue currency
              subAccounts r m a c ca enabled digested inferred a_in a_merges)
    as (rates & a' & _ & Hin & Ha' & Hbal & _).
  exists a'. split; [exact Hin|]. split; [exact Ha'|].
  rewrite Hbal. f_equal. now apply integerValue_integral.
Qed.

(** X18.  When the table has no entry for the cToken and the answers of the
    oracle have none either for the dates of the operations of the cToken
    account, the merge goes on with rates of 0: the merged balance is the
    balance of the account, and every operation that the merge makes has
    value 0 and records the string of 0 as its rate. *)
Theorem merged_with_unknown_rates :
  compoundPreloadedValue !! token_id (ctoken c) = None ->
  (forall op,
      In op (account_operations ca) ->
      exists data,
        fetch E (Math_round_div1000 (op_date op))
          [token_contractAddress (ctoken c)] = Ok data
        /\ find_cToken data (ctoken c) = None) ->
  exists a' newOps,
    In a' (array_of subAccounts r)
    /\ digestTokenAccount E compoundPreloadedValue m a = Ok (Some a')
    /\ account_balance a' = account_balance a
    /\ account_operations a' = mergeOps E (account_operations a) newOps
    /\ Forall
         (fun o =>
            op_value o = 0
            /\ In ("rate", ExtraString (BigNumber_toString E 0))
                  (op_extra o))
         newOps.
Proof.
  intros Htable Horacle.
  destruct (digestTokenAccounts_merged E compoundPreloadedValue currency
              subAccounts r m a c ca enabled digested inferred a_in a_merges)
    as (rates & a' & Hrates & Hin & Ha' & Hbal & _ & Hops).
  eexists a', _. split; [exact Hin|]. split; [exact Ha'|]. split.
  { rewrite Hbal. unfold getCTokenRate. rewrite Htable.
    rewrite (integerValue_integral _ 0); [lia|]. unfold times.
    change (inject_Z 0) with 0%Q. lra. }
  split; [exact Hops|].
  apply Forall_forall. intros o Ho. apply list_elem_of_omap in Ho.
  destruct Ho as ([op rate] & Hzip & Hremap). simpl in Hremap.
  rewrite list_elem_of_In in Hzip.
  destruct (zip_rates_each _ _ _ _ _ _ Hrates Hzip) as [Hop Hrate].
  destruct (Horacle op Hop) as (data & Hdata & Habsent).
  rewrite (fetchHistoricalRate_absent E _ _ data Hdata Habsent) in Hrate.
  injection Hrate as <-.
  unfold remapOperation in Hremap.
  destruct (obj_get (op_type op) cdaiToDaiOpMapping); [|discriminate].
  injection Hremap as <-. simpl. split; [|right; now left].
  apply integerValue_integral. unfold times.
  change (inject_Z 0) with 0%Q. lra.
Qed.

End Exact.

Lemma merged_balance_exact_when_integral_witness :
  exists a',
    In a' Sample.digested_doubled
    /\ digestTokenAccount Sample.up Sample.doubled Sample.inferred
         Sample.dai_account = Ok (Some a')
    /\ account_balance a' = account_balance Sample.dai_account + 6.
Proof.
  apply (merged_balance_exact_when_integral Sample.up Sample.doubled
           Sample.ethereum Sample.both (NewArray Sample.digested_doubled)
           Sample.inferred Sample.dai_account Sample.dai_entry
           Sample.cdai_account).
  - vm_compute. reflexivity.
  - vm_compute. reflexivity.
  - vm_compute. reflexivity.
  - left. reflexivity.
  - repeat split.
  - vm_compute. reflexivity.
Defined.

Lemma merged_with_unknown_rates_witness :
  exists a' newOps,
    In a' Sample.digested_blank
    /\ digestTokenAccount Sample.blank ∅ Sample.inferred Sample.dai_account
       = Ok (Some a')
    /\ account_balance a' = account_balance Sample.dai_account
    /\ account_operations a'
       = mergeOps Sample.blank (account_operations Sample.dai_account)
           newOps
    /\ Forall
         (fun o =>
            op_value o = 0
            /\ In ("rate", ExtraString (BigNumber_toString Sample.blank 0))
                  (op_extra o))
         newOps.
Proof.
  apply (merged_with_unknown_rates Sample.blank ∅
           Sample.ethereum Sample.both (NewArray Sample.digested_blank)
           Sample.inferred Sample.dai_account Sample.dai_entry
           Sample.cdai_account).
  - vm_compute. reflexivity.
  - vm_compute. reflexivity.
  - vm_compute. reflexivity.
  - left. reflexivity.
  - repeat split.
  - reflexivity.
  - intros op _. exists {| data_cToken := [] |}. split; reflexivity.
Defined.

(** ** How the module fails *)







(** * Properties of the explorer API *)

Section ApiProperties.

Import Api.

Variable S : Services.
Variable ethBaseURL : string.

Lemma not_in_block_spec (hash : string) (tx : Tx) :
  not_in_block hash tx = true
  <-> tx_block tx = None
      \/ exists b, tx_block tx = Some b /\ block_hash b <> hash.
Proof.
  unfold not_in_block. destruct (tx_block tx) as [b|].
  - rewrite negb_true_iff, bool_decide_eq_false. split.
    + intros H. right. eauto.
    + intros [[=]|(b' & [= <-] & H)]. exact H.
  - split; [now left | reflexivity].
Qed.

Lemma filter_sublist {A} (f : A -> bool) (l : list A) :
  sublist (List.filter f l) l.
Proof.
  induction l as [|x l IH]; simpl; [constructor|].
  destruct (f x); [now apply sublist_skip | now apply sublist_cons].
Qed.

(** X20.  [getTransactionsEthereum] hands over what the explorer answers,
    as it is when no block hash is given, and without the transactions of
    the block when one is: a transaction of the answer is kept exactly when
    it has no block or a block with another hash, the order and the
    [truncated] flag are kept, and a failure of the explorer is the failure
    of the method.  The batch size is 2000 when none is given. *)
Theorem getTransactionsEthereum_drops_the_paginated_block
  (address : string) (block_hash : option string) (batch_size : option Z) :
  match explorer_transactions S ethBaseURL address block_hash
          (default 2000 batch_size) with
  | Rejected e =>
      getTransactionsEthereum S ethBaseURL address block_hash batch_size
      = Rejected e
  | Resolved data =>
      exists page,
        getTransactionsEthereum S ethBaseURL address block_hash batch_size
        = Resolved page
        /\ truncated page = truncated data
        /\ sublist (txs page) (txs data)
        /\ (truthy block_hash = None -> page = data)
        /\ (forall hash,
               truthy block_hash = Some hash ->
               forall tx,
                 In tx (txs page)
                 <-> In tx (txs data)
                     /\ (tx_block tx = None
                         \/ exists b, tx_block tx = Some b
                              /\ Api.block_hash b <> hash))
  end.
Proof.
  unfold getTransactionsEthereum.
  destruct (explorer_transactions S ethBaseURL address block_hash
              (default 2000 batch_size)) as [data|e]; [|reflexivity].
  destruct (truthy block_hash) as [hash|].
  - eexists. split; [reflexivity|]. simpl. split; [reflexivity|].
    split; [apply filter_sublist|]. split; [discriminate|].
    intros hash' [= <-] tx. rewrite filter_In, not_in_block_spec. tauto.
  - exists data. split; [reflexivity|]. split; [reflexivity|].
    split; [reflexivity|]. split; [reflexivity | discriminate].
Qed.

Lemma rollupLoop_pages (address : string) (pages : nat -> list Tx)
  (n : nat) :
  (forall i, (i < n)%nat ->
     getBatchedTransactions S address 100 (100 * Z.of_nat i)
     = Resolved (pages i)
     /\ pages i <> []) ->
  forall d k acc fuel,
    (k + d = n)%nat -> (d < fuel)%nat ->
    rollupLoop S fuel address (100 * Z.of_nat k) acc
    = match getBatchedTransactions S address 100 (100 * Z.of_nat n) with
      | Rejected e => Some (Rejected e)
      | Resolved [] =>
          Some (Resolved (acc ++ concat (map pages (seq k d)))%list)
      | Resolved last =>
          rollupLoop S (fuel - Datatypes.S d) address
            (100 * Z.of_nat (Datatypes.S n))
            ((acc ++ concat (map pages (seq k d))) ++ last)%list
      end.
Proof.
  intros Hpages. induction d as [|d IH]; intros k acc fuel Hk Hfuel.
  - assert (k = n) by lia. subst k.
    destruct fuel as [|fuel]; [lia|]. simpl.
    destruct (getBatchedTransactions S address 100 (100 * Z.of_nat n))
      as [last|e]; [|reflexivity].
    rewrite app_nil_r.
    destruct last as [|tx last]; [now rewrite app_nil_r|].
    replace (100 * Z.of_nat n + 100) with (100 * Z.of_nat (Datatypes.S n))
      by lia.
    now rewrite Nat.sub_0_r.
  - destruct fuel as [|fuel]; [lia|]. simpl.
    destruct (Hpages k ltac:(lia)) as [Hpage Hne]. rewrite Hpage.
    destruct (pages k) as [|tx page] eqn:Hk'; [congruence|].
    replace (100 * Z.of_nat k + 100) with (100 * Z.of_nat (Datatypes.S k))
      by lia.
    rewrite (IH (Datatypes.S k) _ fuel) by lia.
    rewrite <- !app_assoc. reflexivity.
Qed.

(** X21.  [getTransactionsRollup] without a block hash asks the rollup for
    pages of 100 transactions, at the offsets 0, 100, 200 and so on, until a
    page is empty, and resolves to the transactions of all the pages in that
    order, never marked as truncated; a page that fails makes the method
    fail with it. *)
Theorem getTransactionsRollup_concatenates_pages (address : string)
  (block_hash : option string) (pages : nat -> list Tx) (n fuel : nat) :
  truthy block_hash = None ->
  (forall i, (i < n)%nat ->
     getBatchedTransactions S address 100 (100 * Z.of_nat i)
     = Resolved (pages i)
     /\ pages i <> []) ->
  (n < fuel)%nat ->
  (getBatchedTransactions S address 100 (100 * Z.of_nat n) = Resolved [] ->
   getTransactionsRollup S fuel address block_hash
   = Some (Resolved {| truncated := false;
                       txs := concat (map pages (seq 0 n)) |}))
  /\ (forall e,
         getBatchedTransactions S address 100 (100 * Z.of_nat n)
         = Rejected e ->
         getTransactionsRollup S fuel address block_hash
         = Some (Rejected e)).
Proof.
  intros Hbh Hpages Hfuel. unfold getTransactionsRollup. rewrite Hbh.
  change 0 with (100 * Z.of_nat 0).
  rewrite (rollupLoop_pages address pages n Hpages n 0%nat [] fuel)
    by lia.
  split; [intros -> | intros e ->]; reflexivity.
Qed.

(** X22.  [getTransactionsRollup] without a block hash does not return as
    long as the rollup answers with pages that are not empty: against a
    rollup that never sends an empty page the loop runs for ever. *)
Theorem getTransactionsRollup_needs_an_empty_page (address : string)
  (block_hash : option string) :
  truthy block_hash = None ->
  (forall i : nat,
      exists page,
        getBatchedTransactions S address 100 (100 * Z.of_nat i)
        = Resolved page
        /\ page <> []) ->
  forall fuel, getTransactionsRollup S fuel address block_hash = None.
Proof.
  intros Hbh Hpages fuel. unfold getTransactionsRollup. rewrite Hbh.
  assert (Hloop : forall fuel k acc,
             rollupLoop S fuel address (100 * Z.of_nat k) acc = None).
  { clear fuel. induction fuel as [|fuel IH]; intros k acc; simpl;
      [reflexivity|].
    destruct (Hpages k) as (page & -> & Hne).
    destruct page as [|tx page]; [congruence|].
    replace (100 * Z.of_nat k + 100) with (100 * Z.of_nat (Datatypes.S k))
      by lia.
    apply IH. }
  change 0 with (100 * Z.of_nat 0). now rewrite Hloop.
Qed.

(** X23.  [getTransactions] serves an account that zkSync does not know,
    or knows under the id 0, from the explorer of Ethereum, and any other
    account from the rollup; for the latter, a call with a block hash
    resolves to no transaction at all, without a request for a page. *)
Theorem getTransactions_dispatch (address : string)
  (block_hash : option string) (batch_size : option Z)
  (accountState : AccountState) (fuel : nat) :
  getState S address = Resolved accountState ->
  ((state_id accountState = None \/ state_id accountState = Some 0) ->
   getTransactions S ethBaseURL fuel address block_hash batch_size
   = Some (getTransactionsEthereum S ethBaseURL address block_hash
             batch_size))
  /\ (forall id,
         state_id accountState = Some id -> id <> 0 ->
         getTransactions S ethBaseURL fuel address block_hash batch_size
         = getTransactionsRollup S fuel address block_hash
         /\ (is_Some (truthy block_hash) ->
             getTransactions S ethBaseURL fuel address block_hash
               batch_size
             = Some (Resolved {| truncated := false; txs := [] |}))).
Proof.
  intros Hstate. unfold getTransactions, has_id. rewrite Hstate. split.
  - intros [-> | ->]; simpl; unfold getTransactionsEthereum;
      destruct batch_size; reflexivity.
  - intros id -> Hid. apply Z.eqb_neq in Hid. rewrite Hid. simpl.
    split; [reflexivity|]. intros [h Hh].
    unfold getTransactionsRollup. now rewrite Hh.
Qed.

Lemma approval_of_Some (m : JSON) (s v : string) :
  approval_of m = Some {| sender := s; value := v |}
  <-> exists fields,
        m = JObject fields
        /\ field "sender" fields = Some (JString s)
        /\ field "value" fields = Some (JString v).
Proof.
  unfold approval_of. split.
  - intros H. destruct m as [| | | | |fields]; try discriminate H.
    destruct (field "sender" fields) as [[]|] eqn:Hs; try discriminate H.
    destruct (field "value" fields) as [[]|] eqn:Hv; try discriminate H.
    injection H as -> ->. eauto.
  - intros (fields & -> & -> & ->). reflexivity.
Qed.

(** X24.  [getERC20ApprovalsPerContract] resolves to the approvals of the
    answer that are well formed, in their order: an element gives an
    approval exactly when it is an object whose [sender] and [value] are
    strings, and any other element is passed over without a failure. *)
Theorem getERC20ApprovalsPerContract_keeps_well_formed_approvals
  (owner contract : string) (data : list JSON) :
  rollup_approvals S owner contract = Resolved (JArray data) ->
  exists approvals,
    getERC20ApprovalsPerContract S owner contract = Resolved approvals
    /\ approvals = omap approval_of data
    /\ (length approvals <= length data)%nat
    /\ forall s v,
         In {| sender := s; value := v |} approvals
         <-> exists fields,
               In (JObject fields) data
               /\ field "sender" fields = Some (JString s)
               /\ field "value" fields = Some (JString v).
Proof.
  intros Hdata. unfold getERC20ApprovalsPerContract. rewrite Hdata.
  eexists. split; [reflexivity|]. split; [reflexivity|]. split.
  - clear. induction data as [|m data IH]; simpl; [lia|].
    change (list_omap JSON Approval approval_of data)
      with (omap approval_of data).
    destruct (approval_of m); simpl; lia.
  - intros s v. rewrite <- list_elem_of_In, list_elem_of_omap. split.
    + intros (m & Hm & Happ). apply approval_of_Some in Happ.
      destruct Happ as (fields & -> & Hs & Hv).
      exists fields. rewrite <- list_elem_of_In. auto.
    + intros (fields & Hin & Hs & Hv). exists (JObject fields).
      rewrite list_elem_of_In. split; [exact Hin|].
      apply approval_of_Some. eauto.
Qed.

(** X25.  [getERC20ApprovalsPerContract] turns a failure of status 404 into
    an empty list of approvals and lets any other failure through as it is;
    an answer that is not an array makes it fail. *)
Theorem getERC20ApprovalsPerContract_failures (owner contract : string) :
  (forall e,
      rollup_approvals S owner contract = Rejected e ->
      (status e = Some 404 ->
       getERC20ApprovalsPerContract S owner contract = Resolved [])
      /\ (status e <> Some 404 ->
          getERC20ApprovalsPerContract S owner contract = Rejected e))
  /\ (forall j,
         rollup_approvals S owner contract = Resolved j ->
         (forall data, j <> JArray data) ->
         exists e,
           getERC20ApprovalsPerContract S owner contract = Rejected e
           /\ status e = None).
Proof.
  unfold getERC20ApprovalsPerContract. split.
  - intros e ->. destruct (decide (status e = Some 404)); split; tauto.
  - intros j -> Hj.
    destruct j as [| | | |data|]; try (eexists; split; reflexivity).
    now destruct (Hj data).
Qed.

End ApiProperties.

Lemma getTransactionsRollup_concatenates_pages_witness :
  Api.getTransactionsRollup (Api.services (Some 42) (Api.Resolved Api.JNull))
    4 "0xAB" None
  = Some (Api.Resolved
            {| Api.truncated := false;
               Api.txs := concat (map Api.pages (seq 0 3)) |}).
Proof.
  refine (proj1 (getTransactionsRollup_concatenates_pages
                   (Api.services (Some 42) (Api.Resolved Api.JNull))
                   "0xAB" None Api.pages 3 4 _ _ _) _).
  - reflexivity.
  - intros i Hi. destruct i as [|[|[|i]]]; [| | |lia];
      (split; [vm_compute; reflexivity | vm_compute; discriminate]).
  - lia.
  - vm_compute. reflexivity.
Defined.

Lemma getTransactionsRollup_needs_an_empty_page_witness :
  Api.getTransactionsRollup Api.endless 1000 "0xAB" None = None.
Proof.
  apply getTransactionsRollup_needs_an_empty_page.
  - reflexivity.
  - intros i. eexists. split; [reflexivity | discriminate].
Defined.

Lemma getTransactions_dispatch_witness :
  Api.getTransactions (Api.services (Some 0) (Api.Resolved Api.JNull))
    "https://explorers.api.live.ledger.com/blockchain/v3/eth" 0 "0xAB"
    (Some "0xb2") None
  = Some (Api.getTransactionsEthereum
            (Api.services (Some 0) (Api.Resolved Api.JNull))
            "https://explorers.api.live.ledger.com/blockchain/v3/eth"
            "0xAB" (Some "0xb2") None)
  /\ Api.getTransactions (Api.services (Some 42) (Api.Resolved Api.JNull))
       "https://explorers.api.live.ledger.com/blockchain/v3/eth" 0 "0xAB"
       (Some "0xb2") None
     = Some (Api.Resolved {| Api.truncated := false; Api.txs := [] |}).
Proof.
  split.
  - refine (proj1 (getTransactions_dispatch
                     (Api.services (Some 0) (Api.Resolved Api.JNull))
                     _ "0xAB" (Some "0xb2") None _ 0 _) _);
      [reflexivity | right; reflexivity].
  - refine (proj2 (proj2 (getTransactions_dispatch
                     (Api.services (Some 42) (Api.Resolved Api.JNull))
                     _ "0xAB" (Some "0xb2") None _ 0 _) 42 _ _) _);
      [reflexivity | reflexivity | discriminate | vm_compute; eauto].
Defined.

Lemma getERC20ApprovalsPerContract_keeps_well_formed_approvals_witness :
  exists approvals,
    Api.getERC20ApprovalsPerContract
      (Api.services None (Api.Resolved (Api.JArray Api.answer)))
      "0xAB" "0xCD"
    = Api.Resolved approvals
    /\ approvals = omap Api.approval_of Api.answer
    /\ (length approvals <= length Api.answer)%nat
    /\ forall s v,
         In {| Api.sender := s; Api.value := v |} approvals
         <-> exists fields,
               In (Api.JObject fields) Api.answer
               /\ Api.field "sender" fields = Some (Api.JString s)
               /\ Api.field "value" fields = Some (Api.JString v).
Proof.
  apply getERC20ApprovalsPerContract_keeps_well_formed_approvals.
  reflexivity.
Defined.

Lemma getERC20ApprovalsPerContract_failures_witness :
  Api.getERC20ApprovalsPerContract
    (Api.services None (Api.Rejected Api.not_found)) "0xAB" "0xCD"
  = Api.Resolved []
  /\ Api.getERC20ApprovalsPerContract
       (Api.services None (Api.Rejected Api.unavailable)) "0xAB" "0xCD"
     = Api.Rejected Api.unavailable
  /\ exists e,
       Api.getERC20ApprovalsPerContract
         (Api.services None (Api.Resolved (Api.JString "busy")))
         "0xAB" "0xCD"
       = Api.Rejected e
       /\ Api.status e = None.
Proof.
  split; [|split].
  - refine (proj1 (proj1 (getERC20ApprovalsPerContract_failures
                            (Api.services None (Api.Rejected Api.not_found))
                            "0xAB" "0xCD") _ _) _); reflexivity.
  - refine (proj2 (proj1 (getERC20ApprovalsPerContract_failures
                            (Api.services None
                               (Api.Rejected Api.unavailable))
                            "0xAB" "0xCD") _ _) _);
      [reflexivity | discriminate].
  - refine (proj2 (getERC20ApprovalsPerContract_failures
                     (Api.services None
                        (Api.Resolved (Api.JString "busy")))
                     "0xAB" "0xCD") _ _ _);
      [reflexivity | discriminate].
Defined.

Example sample_getTransactionsEthereum :
  Api.getTransactionsEthereum
    (Api.services None (Api.Resolved Api.JNull))
    "https://explorers.api.live.ledger.com/blockchain/v3/eth" "0xAB"
    (Some "0xb2") None
  = Api.Resolved
      {| Api.truncated := true;
         Api.txs := [Api.tx "0x01" (Some "0xb1"); Api.tx "0x03" None] |}.
Proof. reflexivity. Qed.
